(** * Trace-context propagation in the Lambda observability library

    A shallow embedding of the trace-propagation core of the repository:
    - [src/index.js]: [ObservabilityManager] ([init], [getTraceContext],
      [extractIncomingTraceContext], [monitor]), [SQSProcessor]
      ([processBatch], [parseMessage], [getQueueName]) and [SNSPublisher]
      ([publish], [generateFallbackTrace]);
    - [src/src/publisher/index.mjs]: [getTraceparentFromActiveSpan],
      [generateW3CTraceparent] and [handler].

    JavaScript values are modelled by an inductive type, objects used as
    dictionaries by finite maps, exceptions by a sum type, and
    [Math.random] by an explicit stream that is threaded through the code.

    Outside the model: what is written to the console and to spans (the
    OpenTelemetry API does not throw), and the network call behind
    [sns.send]; a function that publishes is followed up to the command it
    hands to [sns.send].  Values that are thrown are [Error] instances. *)

From Stdlib Require Import ZArith NArith List Ascii String Bool Lia.
From Stdlib Require Import HexadecimalString HexadecimalN.
From stdpp Require Import base option list gmap strings.

Local Open Scope string_scope.
Set Warnings "-register-all".

(** ** JavaScript strings *)

Module JsString.

(** [s.split(sep)] for a one-character separator: the pieces between the
    occurrences of [sep], in order; a string without [sep] gives one piece
    (so does the empty string). *)
Fixpoint split (sep : ascii) (s : string) : list string :=
  match s with
  | EmptyString => [EmptyString]
  | String c r =>
      if Ascii.eqb c sep then EmptyString :: split sep r
      else match split sep r with
           | h :: t => String c h :: t
           | [] => [String c EmptyString]
           end
  end.

(** [parts.join(sep)]. *)
Fixpoint join (sep : string) (parts : list string) : string :=
  match parts with
  | [] => EmptyString
  | [p] => p
  | p :: rest => p ++ sep ++ join sep rest
  end.

(** [arr.pop()] on a fresh array: its last element, [undefined] if empty. *)
Definition pop (parts : list string) : option string := last parts.

(** A string is falsy exactly when it is empty. *)
Definition truthy (s : string) : bool :=
  match s with EmptyString => false | _ => true end.

(** [a || b] where each side is a string or [undefined]. *)
Definition or (a b : option string) : option string :=
  match a with
  | Some s => if truthy s then Some s else b
  | None => b
  end.

(** Truthiness of a value that is a string or [undefined]. *)
Definition truthy_opt (a : option string) : bool :=
  match a with Some s => truthy s | None => false end.

Fixpoint forallb (p : ascii -> bool) (s : string) : bool :=
  match s with
  | EmptyString => true
  | String c r => p c && forallb p r
  end.

Fixpoint startsWith (pre s : string) : option string :=
  match pre, s with
  | EmptyString, _ => Some s
  | String a pre', String b s' =>
      if Ascii.eqb a b then startsWith pre' s' else None
  | String _ _, EmptyString => None
  end.

(** The first [n] characters of [s] and the rest, when [s] is long enough. *)
Fixpoint take (n : nat) (s : string) : option (string * string) :=
  match n with
  | O => Some (EmptyString, s)
  | S n' =>
      match s with
      | EmptyString => None
      | String c r =>
          match take n' r with
          | Some (h, t) => Some (String c h, t)
          | None => None
          end
      end
  end.

End JsString.

(** [0-9a-f]: the lowercase hexadecimal digits. *)
Definition isLowerHex (c : ascii) : bool :=
  let n := nat_of_ascii c in
  ((48 <=? n)%nat && (n <=? 57)%nat) || ((97 <=? n)%nat && (n <=? 102)%nat).

Definition dash : ascii := "-"%char.

(** The canonical trace-context text of the wire contract:
    four dash-separated fields of 2, 32, 16 and 2 lowercase hex digits. *)
Definition wellFormedTraceparent (text : string) : bool :=
  match JsString.split dash text with
  | [v; tid; sid; fl] =>
      (String.length v =? 2)%nat && (String.length tid =? 32)%nat &&
      (String.length sid =? 16)%nat && (String.length fl =? 2)%nat &&
      JsString.forallb isLowerHex v && JsString.forallb isLowerHex tid &&
      JsString.forallb isLowerHex sid && JsString.forallb isLowerHex fl
  | _ => false
  end.

(** ** Trace contexts ([src/index.js]) *)

(** What [span.spanContext()] returns. *)
Record SpanContext := mkSpanContext {
  sc_traceId : string;
  sc_spanId : string;
  sc_traceFlags : Z
}.

(** The object built by [getTraceContext] and [extractIncomingTraceContext]:
    [{ traceId, spanId, traceparent }]; [traceId] and [spanId] are
    [undefined] when [parts[1]], [parts[2]] do not exist. *)
Record TraceContext := mkTraceContext {
  traceId : option string;
  spanId : option string;
  traceparent : string
}.

(** [ToInt32], applied by [&] to its operands. *)
Definition ToInt32 (z : Z) : Z := ((z + 2 ^ 31) mod 2 ^ 32 - 2 ^ 31)%Z.

(** [(sc.traceFlags & 0x01) ? "01" : "00"]. *)
Definition flagsText (traceFlags : Z) : string :=
  if Z.eqb (Z.land (ToInt32 traceFlags) 1) 0 then "00" else "01".

(** [`00-${sc.traceId}-${sc.spanId}-${flags}`]. *)
Definition formatTraceparent (sc : SpanContext) : string :=
  "00-" ++ sc_traceId sc ++ "-" ++ sc_spanId sc ++ "-" ++ flagsText (sc_traceFlags sc).

(** An SQS message attribute as delivered to the consumer. *)
Record MessageAttribute := mkMessageAttribute {
  stringValue : option string;
  dataType : string
}.

(** An inbound record: an SQS record ([messageAttributes], [body],
    [messageId], ...) or an API Gateway event ([headers]). *)
Record InboundRecord := mkInboundRecord {
  messageId : string;
  receiptHandle : string;
  body : string;
  eventSourceARN : option string;
  messageAttributes : option (gmap string MessageAttribute);
  headers : option (gmap string string)
}.

Module ObservabilityManager.

(** The fields of the manager that the modelled methods read. *)
Record t := mk {
  serviceName : string;
  currentSpan : option SpanContext
}.

(** [new ObservabilityManager(serviceName)]: [currentSpan] starts as [null]. *)
Definition new (name : string) : t :=
  {| serviceName := name; currentSpan := None |}.

Definition getTraceContext (obs : t) : option TraceContext :=
  match currentSpan obs with
  | None => None
  | Some sc =>
      Some {| traceId := Some (sc_traceId sc);
              spanId := Some (sc_spanId sc);
              traceparent := formatTraceparent sc |}
  end.

(** [attrs.name?.stringValue]. *)
Definition attrString (attrs : gmap string MessageAttribute) (name : string)
  : option string :=
  match attrs !! name with
  | Some a => stringValue a
  | None => None
  end.

(** The object returned for a carrier text: [parts = text.split('-')]. *)
Definition contextOfText (text : string) : TraceContext :=
  let parts := JsString.split dash text in
  {| traceId := parts !! 1%nat; spanId := parts !! 2%nat; traceparent := text |}.

Definition fromHeaders (record : InboundRecord) : option TraceContext :=
  match headers record with
  | Some hs =>
      match hs !! "traceparent" with
      | Some h => if JsString.truthy h then Some (contextOfText h) else None
      | None => None
      end
  | None => None
  end.

Definition extractIncomingTraceContext (record : InboundRecord)
  : option TraceContext :=
  match messageAttributes record with
  | Some attrs =>
      let traceparent :=
        JsString.or (attrString attrs "traceparent")
                    (attrString attrs "w3c_traceparent_orig") in
      match traceparent with
      | Some text =>
          if JsString.truthy text then Some (contextOfText text)
          else fromHeaders record
      | None => fromHeaders record
      end
  | None => fromHeaders record
  end.

End ObservabilityManager.

(** ** [Math.random] *)

(** A double in the interval [[0, 1)] is a dyadic rational; the pair
    [(num, expo)] stands for [(num mod 2^expo) / 2^expo]. *)
Record Dyadic := mkDyadic { num : N; expo : N }.

(** The source of randomness: the results of all calls of [Math.random()]
    in order, and how many of them have been made. *)
Record RNG := mkRNG { outcomes : nat -> Dyadic; calls : nat }.

Definition Math_random (g : RNG) : Dyadic * RNG :=
  (outcomes g (calls g), {| outcomes := outcomes g; calls := S (calls g) |}).

(** [Math.floor(x * 16)] for [x] in [[0, 1)]: scaling by 16 and taking the
    integer part are exact on doubles. *)
Definition floorTimes16 (x : Dyadic) : N :=
  ((num x mod 2 ^ expo x) * 16 / 2 ^ expo x)%N.

(** [n.toString(16)] for a non-negative integer [n]. *)
Definition toString16 (n : N) : string :=
  NilZero.string_of_uint (N.to_hex_uint n).

(** [Array.from({ length: n }, () =>
       Math.floor(Math.random() * 16).toString(16)).join('')]. *)
Fixpoint randomHex (n : nat) (g : RNG) : string * RNG :=
  match n with
  | O => (EmptyString, g)
  | S n' =>
      let (x, g1) := Math_random g in
      let (rest, g2) := randomHex n' g1 in
      (toString16 (floorTimes16 x) ++ rest, g2)
  end.

(** The body shared by [generateW3CTraceparent] (publisher) and
    [SNSPublisher.generateFallbackTrace] (library). *)
Definition generateTraceparent (g : RNG) : string * RNG :=
  let (traceId, g1) := randomHex 32 g in
  let (spanId, g2) := randomHex 16 g1 in
  ("00-" ++ traceId ++ "-" ++ spanId ++ "-" ++ "01", g2).

Definition generateW3CTraceparent (g : RNG) : string * RNG := generateTraceparent g.

(** ** JavaScript values and exceptions *)

(** The values that reach the modelled code: JSON data and [undefined].
    A number is kept as the JSON literal that denotes it; an object keeps
    its members in source order (the last binding of a key is the one that
    counts). *)
Inductive JsVal :=
| JUndefined
| JNull
| JBool (b : bool)
| JNumber (literal : string)
| JString (s : string)
| JArray (elems : list JsVal)
| JObject (props : list (string * JsVal)).

(** Faults raised by the engine itself. *)
Inductive EngineFault :=
| JsonSyntax (text : string)
| ReadOfNullish (prop : string)
| NotCallable (expr : string)
| NoPrimitive.

(** An [Error] instance, as far as the [catch] blocks read it. *)
Record JsError := mkJsError { name : string; message : string }.

(** What the engine decides and the model leaves open: arithmetic on
    doubles and the wording of built-in error messages. *)
Class Engine := {
  (** [ToBoolean] of the number a JSON literal denotes *)
  Number_truthy : string -> bool;
  (** [Number::toString] of the number a JSON literal denotes *)
  Number_toString : string -> string;
  (** [x.toString(36).slice(2, 8)] for a result [x] of [Math.random()] *)
  Fraction_base36 : Dyadic -> string;
  (** the [message] of the error thrown for a fault *)
  fault_message : EngineFault -> string;
  (** [JSON.stringify] of a value other than [undefined] *)
  JSON_stringify : JsVal -> string
}.

Definition fault_name (f : EngineFault) : string :=
  match f with
  | JsonSyntax _ => "SyntaxError"
  | _ => "TypeError"
  end.

Definition raise {engine : Engine} (f : EngineFault) : JsError :=
  {| name := fault_name f; message := fault_message f |}.

(** The outcome of code that may throw. *)
Definition Completion (A : Type) : Type := JsError + A.

Definition ret {A} (a : A) : Completion A := inr a.
Definition throw {A} (e : JsError) : Completion A := inl e.
Definition bind {A B} (c : Completion A) (k : A -> Completion B) : Completion B :=
  match c with
  | inl e => inl e
  | inr a => k a
  end.

Notation "'let*' x ':=' c 'in' k" := (bind c (fun x => k))
  (at level 10, x name, c at level 100, k at level 200).

Module Js.
Section WithEngine.
Context {engine : Engine}.

Definition ToBoolean (v : JsVal) : bool :=
  match v with
  | JUndefined | JNull => false
  | JBool b => b
  | JNumber lit => Number_truthy lit
  | JString s => JsString.truthy s
  | JArray _ | JObject _ => true
  end.

(** [v] is [null] or [undefined]: what [??] and [join] test. *)
Definition nullish (v : JsVal) : bool :=
  match v with JUndefined | JNull => true | _ => false end.

(** The last binding of [k] among the members of an object. *)
Fixpoint lookupProp (props : list (string * JsVal)) (k : string) : option JsVal :=
  match props with
  | [] => None
  | (k', v) :: rest =>
      match lookupProp rest k with
      | Some v' => Some v'
      | None => if String.eqb k' k then Some v else None
      end
  end.

(** [v.k] for a property name [k] that no built-in prototype defines. *)
Definition getProp (v : JsVal) (k : string) : Completion JsVal :=
  match v with
  | JUndefined | JNull => throw (raise (ReadOfNullish k))
  | JObject props => ret (default JUndefined (lookupProp props k))
  | _ => ret JUndefined
  end.

(** [ToString]: arrays print as their elements joined by commas, plain
    objects as ["[object Object]"]; an object with a member named
    [toString] has no callable conversion and raises [TypeError]. *)
Fixpoint ToString (v : JsVal) : Completion string :=
  match v with
  | JUndefined => ret "undefined"
  | JNull => ret "null"
  | JBool true => ret "true"
  | JBool false => ret "false"
  | JNumber lit => ret (Number_toString lit)
  | JString s => ret s
  | JArray elems =>
      (fix joinElems (l : list JsVal) : Completion string :=
         match l with
         | [] => ret ""
         | e :: rest =>
             let* s := (if nullish e then ret "" else ToString e) in
             match rest with
             | [] => ret s
             | _ => let* t := joinElems rest in ret (s ++ "," ++ t)
             end
         end) elems
  | JObject props =>
      match lookupProp props "toString" with
      | Some _ => throw (raise NoPrimitive)
      | None => ret "[object Object]"
      end
  end.

End WithEngine.
End Js.

(** ** [JSON.parse] *)

Module JSON.

Inductive Token :=
| TLBrace | TRBrace | TLBracket | TRBracket | TColon | TComma
| TString (s : string) | TNumber (literal : string)
| TTrue | TFalse | TNull.

(** Where the lexer stands inside a number: an optional minus sign; an
    integer part, [0] or a digit [1-9] and more digits; an optional
    fraction, a dot and one or more digits; an optional exponent, [e] or
    [E], an optional sign and one or more digits. *)
Inductive NumPhase := PMinus | PZero | PInt | PDot | PFrac | PE | PESign | PExp.

Inductive LexState :=
| LIdle
| LStr (acc : string)
| LEsc (acc : string)
| LUni (acc : string) (remaining : nat) (unit : N)
| LLit (expect : string) (tok : Token)
| LNum (ph : NumPhase) (acc : string).

Definition quote : ascii := ascii_of_nat 34.
Definition backslash : ascii := ascii_of_nat 92.

Definition isChar (c : ascii) (k : ascii) : bool := Ascii.eqb c k.

Definition isWhitespace (c : ascii) : bool :=
  let n := nat_of_ascii c in
  (n =? 9)%nat || (n =? 10)%nat || (n =? 13)%nat || (n =? 32)%nat.

Definition isDigit (c : ascii) : bool :=
  let n := nat_of_ascii c in (48 <=? n)%nat && (n <=? 57)%nat.

Definition isDigit19 (c : ascii) : bool :=
  let n := nat_of_ascii c in (49 <=? n)%nat && (n <=? 57)%nat.

Definition hexValue (c : ascii) : option N :=
  let n := N_of_ascii c in
  if (48 <=? n)%N && (n <=? 57)%N then Some (n - 48)%N
  else if (97 <=? n)%N && (n <=? 102)%N then Some (n - 87)%N
  else if (65 <=? n)%N && (n <=? 70)%N then Some (n - 55)%N
  else None.

(** A UTF-16 code unit written [\uXXXX], as bytes of the string model
    (the generalised UTF-8 form of the unit). *)
Definition encodeCodeUnit (u : N) : string :=
  if (u <? 128)%N then String (ascii_of_N u) ""
  else if (u <? 2048)%N then
    String (ascii_of_N (192 + u / 64)) (String (ascii_of_N (128 + u mod 64)) "")
  else
    String (ascii_of_N (224 + u / 4096))
      (String (ascii_of_N (128 + (u / 64) mod 64))
         (String (ascii_of_N (128 + u mod 64)) "")).

Definition snoc (s : string) (c : ascii) : string := s ++ String c "".

Definition simpleEscape (c : ascii) : option ascii :=
  if isChar c quote then Some quote
  else if isChar c backslash then Some backslash
  else if isChar c "/" then Some "/"%char
  else if isChar c "b" then Some (ascii_of_nat 8)
  else if isChar c "f" then Some (ascii_of_nat 12)
  else if isChar c "n" then Some (ascii_of_nat 10)
  else if isChar c "r" then Some (ascii_of_nat 13)
  else if isChar c "t" then Some (ascii_of_nat 9)
  else None.

(** A character met between two tokens. *)
Definition lexIdle (c : ascii) : option (list Token * LexState) :=
  if isWhitespace c then Some ([], LIdle)
  else if isChar c "{" then Some ([TLBrace], LIdle)
  else if isChar c "}" then Some ([TRBrace], LIdle)
  else if isChar c "[" then Some ([TLBracket], LIdle)
  else if isChar c "]" then Some ([TRBracket], LIdle)
  else if isChar c ":" then Some ([TColon], LIdle)
  else if isChar c "," then Some ([TComma], LIdle)
  else if isChar c quote then Some ([], LStr "")
  else if isChar c "-" then Some ([], LNum PMinus (String c ""))
  else if isChar c "0" then Some ([], LNum PZero (String c ""))
  else if isDigit19 c then Some ([], LNum PInt (String c ""))
  else if isChar c "t" then Some ([], LLit "rue" TTrue)
  else if isChar c "f" then Some ([], LLit "alse" TFalse)
  else if isChar c "n" then Some ([], LLit "ull" TNull)
  else None.

(** The number read so far is complete: emit it and treat [c] afresh. *)
Definition endNumber (acc : string) (c : ascii) : option (list Token * LexState) :=
  match lexIdle c with
  | Some (toks, st) => Some (TNumber acc :: toks, st)
  | None => None
  end.

Definition isExponentMark (c : ascii) : bool := isChar c "e" || isChar c "E".

Definition lexNumber (ph : NumPhase) (acc : string) (c : ascii)
  : option (list Token * LexState) :=
  let go ph' := Some ([], LNum ph' (snoc acc c)) in
  match ph with
  | PMinus => if isChar c "0" then go PZero else if isDigit19 c then go PInt else None
  | PZero =>
      if isChar c "." then go PDot else if isExponentMark c then go PE
      else endNumber acc c
  | PInt =>
      if isDigit c then go PInt else if isChar c "." then go PDot
      else if isExponentMark c then go PE else endNumber acc c
  | PDot => if isDigit c then go PFrac else None
  | PFrac =>
      if isDigit c then go PFrac else if isExponentMark c then go PE
      else endNumber acc c
  | PE =>
      if isChar c "+" || isChar c "-" then go PESign
      else if isDigit c then go PExp else None
  | PESign => if isDigit c then go PExp else None
  | PExp => if isDigit c then go PExp else endNumber acc c
  end.

Definition lexStep (st : LexState) (c : ascii) : option (list Token * LexState) :=
  match st with
  | LIdle => lexIdle c
  | LStr acc =>
      if isChar c quote then Some ([TString acc], LIdle)
      else if isChar c backslash then Some ([], LEsc acc)
      else if (nat_of_ascii c <? 32)%nat then None
      else Some ([], LStr (snoc acc c))
  | LEsc acc =>
      match simpleEscape c with
      | Some e => Some ([], LStr (snoc acc e))
      | None => if isChar c "u" then Some ([], LUni acc 4 0%N) else None
      end
  | LUni acc n u =>
      match hexValue c, n with
      | Some d, S O => Some ([], LStr (acc ++ encodeCodeUnit (u * 16 + d)))
      | Some d, S n' => Some ([], LUni acc n' (u * 16 + d)%N)
      | _, _ => None
      end
  | LLit expect tok =>
      match expect with
      | String e EmptyString => if isChar c e then Some ([tok], LIdle) else None
      | String e rest => if isChar c e then Some ([], LLit rest tok) else None
      | EmptyString => None
      end
  | LNum ph acc => lexNumber ph acc c
  end.

(** The end of the text: only a complete number may still be open. *)
Definition lexEnd (st : LexState) : option (list Token) :=
  match st with
  | LIdle => Some []
  | LNum PZero acc | LNum PInt acc | LNum PFrac acc | LNum PExp acc =>
      Some [TNumber acc]
  | _ => None
  end.

Fixpoint lex (st : LexState) (text : string) : option (list Token) :=
  match text with
  | EmptyString => lexEnd st
  | String c rest =>
      match lexStep st c with
      | Some (toks, st') =>
          match lex st' rest with
          | Some more => Some (toks ++ more)%list
          | None => None
          end
      | None => None
      end
  end.

(** An array or object under construction (members newest first); an
    object also holds the key whose value is awaited. *)
Inductive Frame :=
| FArray (elemsRev : list JsVal)
| FObject (propsRev : list (string * JsVal)) (key : option string).

(** What the grammar allows next. *)
Inductive Mode :=
| MValue | MValueOrClose | MKey | MKeyOrClose | MColon | MAfterValue
| MDone (v : JsVal).

(** A value is complete: it goes into the innermost open container. *)
Definition deliver (v : JsVal) (stack : list Frame) : option (list Frame * Mode) :=
  match stack with
  | [] => Some ([], MDone v)
  | FArray es :: st => Some (FArray (v :: es) :: st, MAfterValue)
  | FObject ps (Some k) :: st => Some (FObject ((k, v) :: ps) None :: st, MAfterValue)
  | FObject _ None :: _ => None
  end.

Definition scalar (t : Token) : option JsVal :=
  match t with
  | TString s => Some (JString s)
  | TNumber lit => Some (JNumber lit)
  | TTrue => Some (JBool true)
  | TFalse => Some (JBool false)
  | TNull => Some JNull
  | _ => None
  end.

Definition startValue (t : Token) (stack : list Frame) : option (list Frame * Mode) :=
  match t with
  | TLBracket => Some (FArray [] :: stack, MValueOrClose)
  | TLBrace => Some (FObject [] None :: stack, MKeyOrClose)
  | _ => match scalar t with
         | Some v => deliver v stack
         | None => None
         end
  end.

Definition expectKey (t : Token) (stack : list Frame) : option (list Frame * Mode) :=
  match t, stack with
  | TString k, FObject ps None :: st => Some (FObject ps (Some k) :: st, MColon)
  | _, _ => None
  end.

Definition parseStep (t : Token) (stack : list Frame) (m : Mode)
  : option (list Frame * Mode) :=
  match m with
  | MValue => startValue t stack
  | MValueOrClose =>
      match t, stack with
      | TRBracket, FArray es :: st => deliver (JArray (rev es)) st
      | _, _ => startValue t stack
      end
  | MKey => expectKey t stack
  | MKeyOrClose =>
      match t, stack with
      | TRBrace, FObject ps None :: st => deliver (JObject (rev ps)) st
      | _, _ => expectKey t stack
      end
  | MColon => match t with TColon => Some (stack, MValue) | _ => None end
  | MAfterValue =>
      match t, stack with
      | TComma, FArray _ :: _ => Some (stack, MValue)
      | TComma, FObject _ None :: _ => Some (stack, MKey)
      | TRBracket, FArray es :: st => deliver (JArray (rev es)) st
      | TRBrace, FObject ps None :: st => deliver (JObject (rev ps)) st
      | _, _ => None
      end
  | MDone _ => None
  end.

Fixpoint parseTokens (toks : list Token) (stack : list Frame) (m : Mode)
  : option JsVal :=
  match toks with
  | [] => match m with MDone v => Some v | _ => None end
  | t :: rest =>
      match parseStep t stack m with
      | Some (stack', m') => parseTokens rest stack' m'
      | None => None
      end
  end.

(** The value a JSON text denotes, if it is one. *)
Definition parseText (text : string) : option JsVal :=
  match lex LIdle text with
  | Some toks => parseTokens toks [] MValue
  | None => None
  end.

(** [JSON.parse(v)]: the argument is converted to a string first; a text
    that is not JSON raises [SyntaxError]. *)
Definition parse {engine : Engine} (v : JsVal) : Completion JsVal :=
  let* text := Js.ToString v in
  match parseText text with
  | Some r => ret r
  | None => throw (raise (JsonSyntax text))
  end.

(** Writes a JSON text with ['] in place of the double quote. *)
Fixpoint q (s : string) : string :=
  match s with
  | EmptyString => EmptyString
  | String c r => String (if isChar c "'" then quote else c) (q r)
  end.

End JSON.

(** ** The rest of [ObservabilityManager] *)

(** What a call of the context object's member [active] does. *)
Inductive ActiveResult :=
(** it returns an OpenTelemetry [Context]: [getValue(SPAN_KEY)] yields the
    span with this span context, or nothing *)
| ReturnsContext (span : option SpanContext)
(** it returns [undefined] or [null] *)
| ReturnsNullish
(** it returns any other value, which has no callable [getValue] *)
| ReturnsOther
(** it throws *)
| ActiveThrows (e : JsError).

(** The second argument of the library's entry points: the handler's
    context object.  [active] is [None] when that object has no callable
    member [active], and otherwise says what the call does.  Inside
    [init(event, context)] the parameter [context] hides the [context]
    imported from [@opentelemetry/api], so [context.active()] is a call on
    this object. *)
Record HandlerContext := mkHandlerContext {
  awsRequestId : string;
  functionName : string;
  functionVersion : string;
  active : option ActiveResult
}.

(** An SQS event: [event.Records] may be missing. *)
Record SqsEvent := mkSqsEvent { Records : option (list InboundRecord) }.

Section Library.
Context {engine : Engine}.

(** [trace.getSpan(context.active())] inside [init]: the call of
    [context.active()], then [getSpan(c)], which is
    [c.getValue(SPAN_KEY) || undefined]. *)
Definition getActiveSpan (context : HandlerContext) : Completion (option SpanContext) :=
  match active context with
  | None => throw (raise (NotCallable "context.active"))
  | Some (ActiveThrows e) => throw e
  | Some ReturnsNullish => throw (raise (ReadOfNullish "getValue"))
  | Some ReturnsOther => throw (raise (NotCallable "context.getValue"))
  | Some (ReturnsContext span) => ret span
  end.

(** [init(event, context)]; the attributes set on the span and the log
    line are not part of the model. *)
Definition init (obs : ObservabilityManager.t) (event : SqsEvent)
    (context : HandlerContext) : Completion ObservabilityManager.t :=
  let* span := getActiveSpan context in
  ret {| ObservabilityManager.serviceName := ObservabilityManager.serviceName obs;
         ObservabilityManager.currentSpan := span |}.

(** [monitor(operationName, operation, context)], given how [operation]
    completed: the result is returned, an error is logged and thrown again. *)
Definition monitor {A} (operation : Completion A) : Completion A :=
  match operation with
  | inr result => ret result
  | inl error => throw error
  end.

(** ** [SQSProcessor] *)

Definition strictEqString (v : JsVal) (s : string) : bool :=
  match v with
  | JString s' => String.eqb s' s
  | _ => false
  end.

Definition parseMessage (record : InboundRecord) : Completion JsVal :=
  let attempt :=
    let* parsed := JSON.parse (JString (body record)) in
    let* type := Js.getProp parsed "Type" in
    if strictEqString type "Notification" then
      let* inner := Js.getProp parsed "Message" in
      if Js.ToBoolean inner then JSON.parse inner else ret parsed
    else ret parsed in
  match attempt with
  | inr payload => ret payload
  | inl error =>
      throw {| name := "Error";
               message := "Failed to parse message: " ++ message error |}
  end.

(** [eventSourceARN?.split(':').pop() || 'unknown']. *)
Definition getQueueName (eventSourceARN : option string) : string :=
  let last :=
    match eventSourceARN with
    | Some arn => JsString.pop (JsString.split ":" arn)
    | None => None
    end in
  default "unknown" (JsString.or last (Some "unknown")).

(** [status: 'success', result] or [status: 'error', error]. *)
Inductive Status :=
| status_success (result : JsVal)
| status_error (reason : string).

(** An entry of the [results] array. *)
Record ResultEntry := mkResultEntry {
  re_messageId : string;
  re_status : Status
}.

(** An entry of [batchItemFailures]. *)
Record BatchItemFailure := mkBatchItemFailure { itemIdentifier : string }.

Record BatchResponse := mkBatchResponse {
  batchItemFailures : list BatchItemFailure
}.

(** The two arrays the loop of [processBatch] fills. *)
Record Tally := mkTally {
  results : list ResultEntry;
  failures : list BatchItemFailure
}.

Definition isSuccess (r : ResultEntry) : bool :=
  match re_status r with status_success _ => true | status_error _ => false end.

Definition isError (r : ResultEntry) : bool :=
  match re_status r with status_success _ => false | status_error _ => true end.

(** The second argument of the business callback (the [logger] member is
    the manager itself and is left out). *)
Record CallbackInfo := mkCallbackInfo {
  cb_record : InboundRecord;
  cb_traceContext : option TraceContext;
  cb_messageId : string
}.

Section Batch.
(** What the business callback can read and change besides its arguments. *)
Variable World : Type.

(** The awaited call [businessLogic(messageData, info)]: it returns or
    throws, and leaves the world in a new state. *)
Definition BusinessLogic : Type :=
  JsVal -> CallbackInfo -> World -> Completion JsVal * World.

(** The [try] block of the loop body for one record. *)
Definition tryRecord (businessLogic : BusinessLogic) (record : InboundRecord)
    (w : World) : Completion JsVal * World :=
  let traceContext := ObservabilityManager.extractIncomingTraceContext record in
  match parseMessage record with
  | inl error => (throw error, w)
  | inr messageData =>
      let '(outcome, w') :=
        businessLogic messageData
          {| cb_record := record;
             cb_traceContext := traceContext;
             cb_messageId := messageId record |} w in
      (monitor outcome, w')
  end.

(** One turn of the loop: [try { ... results.push(success) }
    catch (error) { failures.push(...); results.push(error) }]. *)
Definition processRecord (businessLogic : BusinessLogic) (record : InboundRecord)
    (acc : Tally) (w : World) : Tally * World :=
  match tryRecord businessLogic record w with
  | (inr result, w') =>
      ({| results := results acc ++
            [{| re_messageId := messageId record; re_status := status_success result |}];
          failures := failures acc |}, w')
  | (inl err, w') =>
      ({| results := results acc ++
            [{| re_messageId := messageId record; re_status := status_error (message err) |}];
          failures := failures acc ++ [{| itemIdentifier := messageId record |}] |}, w')
  end.

(** [for (const record of event.Records || []) { ... }]. *)
Fixpoint processRecords (businessLogic : BusinessLogic)
    (records : list InboundRecord) (acc : Tally) (w : World) : Tally * World :=
  match records with
  | [] => (acc, w)
  | record :: rest =>
      let '(acc', w') := processRecord businessLogic record acc w in
      processRecords businessLogic rest acc' w'
  end.

(** What [obs.complete] is given once the loop has ended. *)
Record Summary := mkSummary {
  processedCount : nat;
  successCount : nat;
  errorCount : nat
}.

Definition summarize (rs : list ResultEntry) : Summary :=
  {| processedCount := length rs;
     successCount := length (List.filter isSuccess rs);
     errorCount := length (List.filter isError rs) |}.

(** [processBatch(event, context, businessLogic)]: the response or the
    error it is rejected with, the summary passed to [obs.complete],
    and the world the callback leaves. *)
Definition processBatch (serviceName : string) (event : SqsEvent)
    (context : HandlerContext) (businessLogic : BusinessLogic) (w : World)
  : Completion (BatchResponse * Summary) * World :=
  match init (ObservabilityManager.new serviceName) event context with
  | inl err => (throw err, w)
  | inr obs =>
      let '(tally, w') :=
        processRecords businessLogic (default [] (Records event))
          {| results := []; failures := [] |} w in
      (ret ({| batchItemFailures := failures tally |}, summarize (results tally)), w')
  end.

End Batch.
End Library.

(** ** Outbound messages *)

(** An SNS message attribute: [{ DataType, StringValue }]. *)
Record SnsAttribute := mkSnsAttribute {
  DataType : string;
  StringValue : JsVal
}.

(** The input of the [PublishCommand] handed to [sns.send]. *)
Record PublishCommandInput := mkPublishCommandInput {
  TopicArn : option string;
  Message : string;
  MessageAttributes : gmap string SnsAttribute
}.

(** [options.publishOptions]: further members of the command input; the
    ones that name a member the library sets as well replace it. *)
Record PublishOptions := mkPublishOptions {
  po_TopicArn : option string;
  po_Message : option string;
  po_MessageAttributes : option (gmap string SnsAttribute)
}.

(** The third argument of [SNSPublisher.publish] ([{}] by default). *)
Record Options := mkOptions {
  opt_messageAttributes : option (gmap string SnsAttribute);
  opt_publishOptions : option PublishOptions
}.

Definition noOptions : Options :=
  {| opt_messageAttributes := None; opt_publishOptions := None |}.

Definition stringAttribute (value : JsVal) : SnsAttribute :=
  {| DataType := "String"; StringValue := value |}.

Module SNSPublisher.
Section WithEngine.
Context {engine : Engine}.

Definition generateFallbackTrace (g : RNG) : string * RNG := generateTraceparent g.

(** [traceContext?.traceparent || this.generateFallbackTrace()]: the
    generator runs only when the left side is falsy. *)
Definition traceparentOrFallback (traceContext : option TraceContext) (g : RNG)
  : string * RNG :=
  match traceContext with
  | Some tc =>
      if JsString.truthy (traceparent tc) then (traceparent tc, g)
      else generateFallbackTrace g
  | None => generateFallbackTrace g
  end.

(** [{ TopicArn, Message, MessageAttributes, ...options.publishOptions }]. *)
Definition commandInput (topicArn : string) (text : string)
    (attrs : gmap string SnsAttribute) (extra : option PublishOptions)
  : PublishCommandInput :=
  {| TopicArn := Some (default topicArn (extra ≫= po_TopicArn));
     Message := default text (extra ≫= po_Message);
     MessageAttributes := default attrs (extra ≫= po_MessageAttributes) |}.

(** [publish(topicArn, message, options)] up to the call of [sns.send]:
    the command input that is sent, or the error thrown before.  The
    manager is created without [init], so its [currentSpan] is [null].
    [JSON.stringify(message).length] throws when [message] is
    [undefined]. *)
Definition publish (serviceName : string) (topicArn : string) (message : JsVal)
    (options : Options) (g : RNG) : Completion PublishCommandInput * RNG :=
  let obs := ObservabilityManager.new serviceName in
  let traceContext := ObservabilityManager.getTraceContext obs in
  match message with
  | JUndefined => (throw (raise (ReadOfNullish "length")), g)
  | _ =>
      let '(primary, g1) := traceparentOrFallback traceContext g in
      let '(backup, g2) := traceparentOrFallback traceContext g1 in
      let messageAttributes :=
        <["w3c_traceparent_orig" := stringAttribute (JString backup)]>
          (<["traceparent" := stringAttribute (JString primary)]>
             (default ∅ (opt_messageAttributes options))) in
      (ret (commandInput topicArn (JSON_stringify message) messageAttributes
              (opt_publishOptions options)), g2)
  end.

End WithEngine.
End SNSPublisher.

(** ** The publisher Lambda ([src/src/publisher/index.mjs]) *)

(** What the publisher reads from its surroundings. *)
Record PublisherEnv := mkPublisherEnv {
  (** [trace.getSpan(context.active())] and, for a span, what its
      [spanContext()] returns ([None] inside: a falsy value) *)
  env_activeSpan : option (option SpanContext);
  (** [process.env._X_AMZN_TRACE_ID] *)
  env_xrayTraceId : option string;
  (** [trace.getSpanContext(context.active())] *)
  env_activeSpanContext : option SpanContext;
  (** [process.env.TOPIC_ARN] *)
  env_topicArn : option string;
  (** [new Date().toISOString()] *)
  env_now : string
}.

Module Publisher.

(** [sc.traceId && sc.spanId], then the traceparent text. *)
Definition traceparentOfSpanContext (sc : SpanContext) : option string :=
  if JsString.truthy (sc_traceId sc) && JsString.truthy (sc_spanId sc)
  then Some (formatTraceparent sc) else None.

Definition hexRun (n : nat) (s : string) : option (string * string) :=
  match JsString.take n s with
  | Some (h, t) => if JsString.forallb isLowerHex h then Some (h, t) else None
  | None => None
  end.

(** The four groups of
    [Root=1-([a-f0-9]{8})-([a-f0-9]{24});Parent=([a-f0-9]{16});Sampled=([01])]
    when the pattern matches at the very start of [s]. *)
Definition xrayMatchAt (s : string) : option (string * string * string * string) :=
  r1 ← JsString.startsWith "Root=1-" s;
  '(timestamp, r2) ← hexRun 8 r1;
  r3 ← JsString.startsWith "-" r2;
  '(traceIdSuffix, r4) ← hexRun 24 r3;
  r5 ← JsString.startsWith ";Parent=" r4;
  '(parentId, r6) ← hexRun 16 r5;
  r7 ← JsString.startsWith ";Sampled=" r6;
  '(sampled, _) ← JsString.take 1 r7;
  if String.eqb sampled "0" || String.eqb sampled "1"
  then Some (timestamp, traceIdSuffix, parentId, sampled) else None.

(** [xrayTraceId.match(...)]: the leftmost match. *)
Fixpoint xrayMatch (s : string) : option (string * string * string * string) :=
  match xrayMatchAt s with
  | Some m => Some m
  | None =>
      match s with
      | EmptyString => None
      | String _ rest => xrayMatch rest
      end
  end.

Definition traceparentOfXray (xrayTraceId : string) : option string :=
  match xrayMatch xrayTraceId with
  | Some (timestamp, traceIdSuffix, parentId, sampled) =>
      let traceId := timestamp ++ traceIdSuffix in
      let flags := if String.eqb sampled "1" then "01" else "00" in
      Some ("00-" ++ traceId ++ "-" ++ parentId ++ "-" ++ flags)
  | None => None
  end.

(** Method 1: the span of the active context. *)
Definition fromActiveSpan (env : PublisherEnv) : option string :=
  match env_activeSpan env with
  | Some (Some sc) => traceparentOfSpanContext sc
  | _ => None
  end.

(** Method 2: the X-Ray environment variable. *)
Definition fromXrayEnv (env : PublisherEnv) : option string :=
  match env_xrayTraceId env with
  | Some xrayTraceId =>
      if JsString.truthy xrayTraceId then traceparentOfXray xrayTraceId else None
  | None => None
  end.

(** Method 3: the span context of the active context. *)
Definition fromActiveContext (env : PublisherEnv) : option string :=
  match env_activeSpanContext env with
  | Some traceState => traceparentOfSpanContext traceState
  | None => None
  end.

(** The three methods in turn; [None] is the final [return null]. *)
Definition getTraceparentFromActiveSpan (env : PublisherEnv) : option string :=
  match fromActiveSpan env with
  | Some text => Some text
  | None =>
      match fromXrayEnv env with
      | Some text => Some text
      | None => fromActiveContext env
      end
  end.

Section WithEngine.
Context {engine : Engine}.

(** Lines 89-91: [incomingTraceparent || otelTraceparent ||
    generateW3CTraceparent()].  The generator runs, and draws from
    [Math.random], only when both other sources are falsy. *)
Definition contextSource (env : PublisherEnv) (incomingTraceparent : JsVal)
    (g : RNG) : JsVal * RNG :=
  let otelTraceparent := getTraceparentFromActiveSpan env in
  if Js.ToBoolean incomingTraceparent then (incomingTraceparent, g)
  else match otelTraceparent with
       | Some text =>
           if JsString.truthy text then (JString text, g)
           else let '(fresh, g') := generateW3CTraceparent g in (JString fresh, g')
       | None => let '(fresh, g') := generateW3CTraceparent g in (JString fresh, g')
       end.

(** [a ?? b] with [b] already evaluated. *)
Definition coalesce (a b : JsVal) : JsVal := if Js.nullish a then b else a.

(** [v.toString()] for a truthy [v]. *)
Definition callToString (v : JsVal) : Completion string :=
  match v with
  | JObject props =>
      match Js.lookupProp props "toString" with
      | Some _ => throw (raise (NotCallable "toString"))
      | None => Js.ToString v
      end
  | _ => Js.ToString v
  end.

(** [traceparent.split('-')] in the log line: only a string has [split]. *)
Definition callSplit (v : JsVal) : Completion (list string) :=
  match v with
  | JString s => ret (JsString.split dash s)
  | _ => throw (raise (NotCallable "traceparent.split"))
  end.

(** Lines 130-152: the attribute map of the outgoing message. *)
Definition buildAttributes (event transactionType orderId traceparent : JsVal)
  : Completion (gmap string SnsAttribute) :=
  let attrs0 : gmap string SnsAttribute :=
    <["orderId" := stringAttribute orderId]>
      (<["transactionType" := stringAttribute transactionType]> ∅) in
  let* amount := Js.getProp event "amount" in
  let* attrs1 :=
    (if Js.ToBoolean amount then
       let* text := callToString amount in
       ret (<["amount" := {| DataType := "Number"; StringValue := JString text |}]> attrs0)
     else ret attrs0) in
  let* customerId := Js.getProp event "customerId" in
  let attrs2 :=
    if Js.ToBoolean customerId
    then <["customerId" := stringAttribute customerId]> attrs1 else attrs1 in
  let* reason := Js.getProp event "reason" in
  let attrs3 :=
    if Js.ToBoolean reason
    then <["reason" := stringAttribute reason]> attrs2 else attrs2 in
  ret (<["w3c_traceparent_orig" := stringAttribute traceparent]>
         (<["traceparent" := stringAttribute traceparent]> attrs3)).

(** [v.k] once [v] is known not to be [null] or [undefined]. *)
Definition member (v : JsVal) (k : string) : JsVal :=
  match Js.getProp v k with
  | inr x => x
  | inl _ => JUndefined
  end.

(** [...(event.k && { k: event.k })]: a member only for a truthy value. *)
Definition optionalMember (event : JsVal) (k : string) : list (string * JsVal) :=
  if Js.ToBoolean (member event k) then [(k, member event k)] else [].

(** Lines 75-86: the message object. *)
Definition buildMessage (env : PublisherEnv) (event transactionType orderId : JsVal)
  : JsVal :=
  JObject ([("message", JString "e2e test");
            ("transactionType", transactionType);
            ("orderId", orderId)]
           ++ optionalMember event "amount"
           ++ optionalMember event "customerId"
           ++ optionalMember event "reason"
           ++ optionalMember event "items"
           ++ [("timestamp", JString (env_now env))])%list.

(** Line 166, the [traceparentSource] member of the handler's result. *)
Definition traceparentSource (incomingTraceparent : JsVal)
    (otelTraceparent : option string) : string :=
  if Js.ToBoolean incomingTraceparent then "incoming"
  else if JsString.truthy_opt otelTraceparent then "otel" else "generated".

(** [handler(event)] up to the call of [sns.send]: the command input that
    is sent, or the error thrown before. *)
Definition handler (env : PublisherEnv) (eventArg : JsVal) (g : RNG)
  : Completion PublishCommandInput * RNG :=
  let event := match eventArg with JUndefined => JObject [] | _ => eventArg end in
  match Js.getProp event "transactionType" with
  | inl err => (throw err, g)
  | inr transactionType0 =>
      let transactionType := coalesce transactionType0 (JString "PAYMENT") in
      let '(orderId, g1) :=
        if Js.nullish (member event "orderId") then
          let '(x, g') := Math_random g in (JString ("ORD-" ++ Fraction_base36 x), g')
        else (member event "orderId", g) in
      let msg := buildMessage env event transactionType orderId in
      let incomingTraceparent := member event "traceparent" in
      let '(traceparent, g2) := contextSource env incomingTraceparent g1 in
      (let* _ := callSplit traceparent in
       let* messageAttributes :=
         buildAttributes event transactionType orderId traceparent in
       ret {| TopicArn := env_topicArn env;
              Message := JSON_stringify msg;
              MessageAttributes := messageAttributes |}, g2)
  end.

End WithEngine.
End Publisher.

(** ** Vocabulary of the statements *)

(** No character of [s] is the separator. *)
Definition free (sep : ascii) (s : string) : bool :=
  JsString.forallb (fun c => negb (Ascii.eqb c sep)) s.

Definition stringAttr (text : string) : MessageAttribute :=
  {| stringValue := Some text; dataType := "String" |}.

(** An SQS record with the given identity, body and attribute map. *)
Definition sqsRecord (id payload : string) (attrs : gmap string MessageAttribute)
  : InboundRecord :=
  {| messageId := id;
     receiptHandle := "handle-" ++ id;
     body := payload;
     eventSourceARN := Some "arn:aws:sqs:us-east-1:000000000000:asyncdemo-q1";
     messageAttributes := Some attrs;
     headers := None |}.

(** A record whose only carrier is the primary attribute. *)
Definition carrierRecord (text : string) : InboundRecord :=
  sqsRecord "m-1" "{}" {[ "traceparent" := stringAttr text ]}.

(** The identifier of the end-to-end scenario and an unrelated one that a
    relay stamps into the primary slot. *)
Definition originalId : string :=
  "00-68dde6a91b7146f84c4bc23f54f17b0f-50d362e330737a0f-01".
Definition relayId : string :=
  "00-11111111111111111111111111111111-2222222222222222-01".

(** A record as delivered after the relay has rewritten the primary slot
    and left the backup slot alone. *)
Definition relayedRecord : InboundRecord :=
  sqsRecord "m-1" "{}"
    (<["w3c_traceparent_orig" := stringAttr originalId]>
       {[ "traceparent" := stringAttr relayId ]}).

(** The carrier slots of a record in the order the recoverer reads them:
    primary attribute, backup attribute, header. *)
Definition carrierSlots (record : InboundRecord) : list (option string) :=
  match messageAttributes record with
  | Some attrs =>
      [ObservabilityManager.attrString attrs "traceparent";
       ObservabilityManager.attrString attrs "w3c_traceparent_orig"]
  | None => []
  end ++
  [match headers record with
   | Some hs => hs !! "traceparent"
   | None => None
   end].

Fixpoint firstNonEmpty (slots : list (option string)) : option string :=
  match slots with
  | [] => None
  | Some s :: rest => if JsString.truthy s then Some s else firstNonEmpty rest
  | None :: rest => firstNonEmpty rest
  end.

(** The codec in terms of the code: [parse] is the recoverer applied to a
    record that carries the text, [serialize] is [getTraceContext] for a
    span that continues a recovered context with the given flags. *)
Module Codec.

Definition parse (text : string) : option TraceContext :=
  ObservabilityManager.extractIncomingTraceContext (carrierRecord text).

Definition serialize (tc : TraceContext) (traceFlags : Z) : option TraceContext :=
  match traceId tc, spanId tc with
  | Some t, Some s =>
      ObservabilityManager.getTraceContext
        {| ObservabilityManager.serviceName := "codec";
           ObservabilityManager.currentSpan :=
             Some {| sc_traceId := t; sc_spanId := s; sc_traceFlags := traceFlags |} |}
  | _, _ => None
  end.

(** [parse(serialize(parse(text)))]. *)
Definition reparse (text : string) (traceFlags : Z) : option TraceContext :=
  match parse text with
  | Some tc =>
      match serialize tc traceFlags with
      | Some tc' => parse (traceparent tc')
      | None => None
      end
  | None => None
  end.

End Codec.

(** A well-formed text whose flags field is not one the serializer writes. *)
Definition flaggedId : string :=
  "00-68dde6a91b7146f84c4bc23f54f17b0f-50d362e330737a0f-03".

(** The characters of an integer literal that denotes zero. *)
Definition isZeroDigit (c : ascii) : bool :=
  Ascii.eqb c "0" || Ascii.eqb c "-".

(** A stand-in for the engine where a statement needs a concrete one.  On
    numbers it answers as an engine does for integer literals; the error
    messages and the stringified texts are placeholders. *)
Definition sampleEngine : Engine :=
  {| Number_truthy := fun lit => negb (JsString.forallb isZeroDigit lit);
     Number_toString := fun lit => lit;
     Fraction_base36 := fun _ => "";
     fault_message := fun f =>
       match f with
       | JsonSyntax _ => "Unexpected token in JSON"
       | ReadOfNullish prop => "Cannot read properties of null"
       | NotCallable expr => expr ++ " is not a function"
       | NoPrimitive => "Cannot convert object to primitive value"
       end;
     JSON_stringify := fun _ => "{}" |}.

(** [Math.random] returning 0/64, 1/64, 2/64, ... in turn. *)
Definition countingRNG : RNG :=
  {| outcomes := fun i => {| num := N.of_nat i; expo := 6 |}; calls := 0 |}.

Definition sampleTopic : string := "arn:aws:sns:us-east-1:000000000000:asyncdemo-topic".

Definition sampleMessage : JsVal := JObject [("x", JNumber "1")].

(** Options whose [publishOptions] carry a [MessageAttributes] member. *)
Definition overridingOptions : Options :=
  {| opt_messageAttributes := None;
     opt_publishOptions :=
       Some {| po_TopicArn := None;
               po_Message := None;
               po_MessageAttributes :=
                 Some {[ "priority" := stringAttribute (JString "high") ]} |} |}.

(** Options with a business attribute and a caller's own [traceparent]. *)
Definition callerOptions : Options :=
  {| opt_messageAttributes :=
       Some (<["traceparent" := stringAttribute (JString "caller-value")]>
               {[ "orderId" := stringAttribute (JString "ORD-1") ]});
     opt_publishOptions := None |}.

(** The context object AWS Lambda passes to a handler: it has no member
    [active]. *)
Definition lambdaContext : HandlerContext :=
  {| awsRequestId := "c6af9ac6-7b61-11e6-9a41-93e8deadbeef";
     functionName := "asyncdemo-consumer";
     functionVersion := "$LATEST";
     active := None |}.

(** A context object that does offer [active()], which returns a
    [Context] with no span in it. *)
Definition activeContext : HandlerContext :=
  {| awsRequestId := "c6af9ac6-7b61-11e6-9a41-93e8deadbeef";
     functionName := "asyncdemo-consumer";
     functionVersion := "$LATEST";
     active := Some (ReturnsContext None) |}.

(** A context object whose [active()] returns a plain object. *)
Definition strayContext : HandlerContext :=
  {| awsRequestId := "c6af9ac6-7b61-11e6-9a41-93e8deadbeef";
     functionName := "asyncdemo-consumer";
     functionVersion := "$LATEST";
     active := Some ReturnsOther |}.


(** A record whose body is not JSON. *)
Definition brokenRecord : InboundRecord := sqsRecord "m-broken" "not json" ∅.

(** The body is not JSON, or it is a notification envelope whose inner
    message is a non-empty string that is not JSON. *)
Definition malformedPayload (record : InboundRecord) : bool :=
  match JSON.parseText (body record) with
  | None => true
  | Some (JObject props) =>
      match Js.lookupProp props "Type", Js.lookupProp props "Message" with
      | Some type, Some (JString inner) =>
          strictEqString type "Notification" && JsString.truthy inner &&
          match JSON.parseText inner with None => true | Some _ => false end
      | _, _ => false
      end
  | Some _ => false
  end.

Section BatchVocabulary.
Context {engine : Engine}.
Variable World : Type.

(** What the callback is given for a record. *)
Definition infoOf (record : InboundRecord) : CallbackInfo :=
  {| cb_record := record;
     cb_traceContext := ObservabilityManager.extractIncomingTraceContext record;
     cb_messageId := messageId record |}.

(** The entry a record leaves in [results], and the world after it. *)
Definition entryOf (businessLogic : BusinessLogic World) (record : InboundRecord)
    (w : World) : ResultEntry * World :=
  match tryRecord World businessLogic record w with
  | (inr result, w') =>
      ({| re_messageId := messageId record; re_status := status_success result |}, w')
  | (inl err, w') =>
      ({| re_messageId := messageId record; re_status := status_error (message err) |}, w')
  end.

Fixpoint entriesOf (businessLogic : BusinessLogic World)
    (records : list InboundRecord) (w : World) : list ResultEntry * World :=
  match records with
  | [] => ([], w)
  | record :: rest =>
      let '(e, w1) := entryOf businessLogic record w in
      let '(es, w2) := entriesOf businessLogic rest w1 in
      (e :: es, w2)
  end.

(** The identities of the entries with status error, in order. *)
Definition failuresOf (entries : list ResultEntry) : list BatchItemFailure :=
  map (fun r => {| itemIdentifier := re_messageId r |}) (List.filter isError entries).

(** The tally after the entries of some more records were pushed. *)
Definition extend (acc : Tally) (entries : list ResultEntry) : Tally :=
  {| results := (results acc ++ entries)%list;
     failures := (failures acc ++ failuresOf entries)%list |}.

(** The record parses, and in every world the callback returns for it
    ([succeeds = true]) or throws for it ([succeeds = false]). *)
Definition callbackOutcome (businessLogic : BusinessLogic World)
    (record : InboundRecord) (succeeds : bool) : Prop :=
  exists payload,
    parseMessage record = ret payload /\
    forall w, exists r w',
      businessLogic payload (infoOf record) w = (r, w') /\
      (if succeeds then exists v, r = inr v else exists e, r = inl e).

End BatchVocabulary.

(** A callback that counts its calls in the world and throws exactly when
    the payload has no [orderId]. *)
Definition countingLogic : BusinessLogic nat :=
  fun messageData _ w =>
    match messageData with
    | JObject props =>
        match Js.lookupProp props "orderId" with
        | Some _ => (inr (JBool true), S w)
        | None => (inl {| name := "Error"; message := "Order ID is required" |}, S w)
        end
    | _ => (inl {| name := "Error"; message := "Order ID is required" |}, S w)
    end.

Definition orderRecord (id : string) : InboundRecord :=
  sqsRecord id (JSON.q "{'orderId':'ORD-1'}") ∅.

(** Three records; the callback throws for the middle one only. *)
Definition batchOfThree : SqsEvent :=
  {| Records := Some [orderRecord "m-0"; sqsRecord "m-1" "{}" ∅; orderRecord "m-2"] |}.


(** ** More of the library ([src/index.js]) *)

Module EventType.
Section WithEngine.
Context {engine : Engine}.

(** [v[0]]: the first element of an array, the member ["0"] of an object,
    the first character of a string, [undefined] otherwise. *)
Definition first (v : JsVal) : JsVal :=
  match v with
  | JArray (e :: _) => e
  | JObject props => default JUndefined (Js.lookupProp props "0")
  | JString (String c _) => JString (String c "")
  | _ => JUndefined
  end.

(** [v?.k]. *)
Definition optionalProp (v : JsVal) (k : string) : JsVal :=
  if Js.nullish v then JUndefined
  else match Js.getProp v k with
       | inr x => x
       | inl _ => JUndefined
       end.

(** The four tests made on the first record, in order. *)
Definition ofFirstRecord (records : JsVal) : option string :=
  let record := first records in
  if strictEqString (optionalProp record "eventSource") "aws:sqs" then Some "SQS"
  else if strictEqString (optionalProp record "EventSource") "aws:sns" then Some "SNS"
  else if strictEqString (optionalProp record "eventSource") "aws:s3" then Some "S3"
  else if strictEqString (optionalProp record "eventSource") "aws:dynamodb"
       then Some "DynamoDB"
  else None.

(** The tests made when the records decide nothing. *)
Definition ofShape (event : JsVal) : Completion string :=
  let* httpMethod := Js.getProp event "httpMethod" in
  let* requestContext := Js.getProp event "requestContext" in
  if Js.ToBoolean httpMethod || Js.ToBoolean requestContext then ret "API_GATEWAY"
  else
    let* source := Js.getProp event "source" in
    let* detailType := Js.getProp event "detail-type" in
    if Js.ToBoolean source && Js.ToBoolean detailType then ret "EVENTBRIDGE"
    else ret "DIRECT_INVOKE".

(** [detectEventType(event)]. *)
Definition detectEventType (event : JsVal) : Completion string :=
  let* records := Js.getProp event "Records" in
  if Js.ToBoolean records then
    match ofFirstRecord records with
    | Some label => ret label
    | None => ofShape event
    end
  else ofShape event.

End WithEngine.
End EventType.

(** The labels [detectEventType] can return. *)
Definition eventTypes : list string :=
  ["SQS"; "SNS"; "S3"; "DynamoDB"; "API_GATEWAY"; "EVENTBRIDGE"; "DIRECT_INVOKE"].

(** [init] reads its first argument only for the log line, which the
    model leaves out; this is the value passed where the event is not an
    SQS event. *)
Definition anyEvent : SqsEvent := {| Records := None |}.

Module APIHandler.
Section WithEngine.
Context {engine : Engine}.
Variable World : Type.

(** The second argument of the business callback (the [logger] member is
    left out). *)
Record Info := mkInfo {
  info_context : HandlerContext;
  info_traceContext : option TraceContext
}.

(** The awaited call [businessLogic(event, info)]. *)
Definition BusinessLogic : Type :=
  InboundRecord -> Info -> World -> Completion JsVal * World.

(** The object returned by the [catch] block. *)
Definition internalServerError (context : HandlerContext) : JsVal :=
  JObject [("statusCode", JNumber "500");
           ("body", JString (JSON_stringify
              (JObject [("error", JString "Internal Server Error");
                        ("requestId", JString (awsRequestId context))])))].

(** The [try] block: the call of the callback, then
    [result.statusCode || 200] and [JSON.stringify(result).length], which
    throw for a result that is [null] or [undefined]. *)
Definition tryRequest (businessLogic : BusinessLogic) (event : InboundRecord)
    (context : HandlerContext) (w : World) : Completion JsVal * World :=
  let traceContext := ObservabilityManager.extractIncomingTraceContext event in
  let '(outcome, w') :=
    businessLogic event
      {| info_context := context; info_traceContext := traceContext |} w in
  (let* result := monitor outcome in
   let* statusCode := Js.getProp result "statusCode" in
   ret result, w').

(** [handle(event, context, businessLogic)]. *)
Definition handle (serviceName : string) (event : InboundRecord)
    (context : HandlerContext) (businessLogic : BusinessLogic) (w : World)
  : Completion JsVal * World :=
  match init (ObservabilityManager.new serviceName) anyEvent context with
  | inl err => (throw err, w)
  | inr obs =>
      match tryRequest businessLogic event context w with
      | (inr result, w') => (ret result, w')
      | (inl error, w') => (ret (internalServerError context), w')
      end
  end.

End WithEngine.
End APIHandler.

Section Wrapper.
Context {engine : Engine}.
Variable World : Type.

(** A Lambda handler as [withObservability] calls it, [handler(event,
    context, obs)] (the manager it is handed is left out). *)
Definition LambdaHandler : Type :=
  JsVal -> HandlerContext -> World -> Completion JsVal * World.

(** [new ObservabilityManager(serviceName).init(event, context)] for an
    event that may be any value: [context.active()] is called first, and
    the arguments of the log line then call [detectEventType(event)], which
    reads [event.Records]. *)
Definition initWith (serviceName : string) (event : JsVal)
    (context : HandlerContext) : Completion ObservabilityManager.t :=
  let* obs := init (ObservabilityManager.new serviceName) anyEvent context in
  let* eventType := EventType.detectEventType event in
  ret obs.

(** [withObservability(serviceName, handler)]: the wrapped handler. *)
Definition withObservability (serviceName : string) (handler : LambdaHandler)
  : LambdaHandler :=
  fun event context w =>
    match initWith serviceName event context with
    | inl err => (throw err, w)
    | inr obs =>
        match handler event context w with
        | (outcome, w') =>
            match monitor outcome with
            | inr result => (ret result, w')
            | inl error => (throw error, w')
            end
        end
    end.

End Wrapper.

(** ** Vocabulary of the further statements *)

(** A span context whose ids are those of a well-formed identifier. *)
Definition validIds (sc : SpanContext) : bool :=
  (String.length (sc_traceId sc) =? 32)%nat &&
  JsString.forallb isLowerHex (sc_traceId sc) &&
  (String.length (sc_spanId sc) =? 16)%nat &&
  JsString.forallb isLowerHex (sc_spanId sc).

(** Every span context the environment can hand out has valid ids. *)
Definition validEnv (env : PublisherEnv) : bool :=
  match env_activeSpan env with
  | Some (Some sc) => validIds sc
  | _ => true
  end &&
  match env_activeSpanContext env with
  | Some sc => validIds sc
  | None => true
  end.

(** The X-Ray header of the comment in the publisher. *)
Definition sampleXray : string :=
  "Root=1-5e1b4151-5ac6c58f40c8b5e065b2dcf0;Parent=53995c3f42cd8ad8;Sampled=1".

Definition sampleSpanContext : SpanContext :=
  {| sc_traceId := "68dde6a91b7146f84c4bc23f54f17b0f";
     sc_spanId := "50d362e330737a0f";
     sc_traceFlags := 1 |}.

Definition sampleEnv : PublisherEnv :=
  {| env_activeSpan := Some (Some sampleSpanContext);
     env_xrayTraceId := Some sampleXray;
     env_activeSpanContext := Some sampleSpanContext;
     env_topicArn := Some sampleTopic;
     env_now := "2024-01-01T00:00:00.000Z" |}.

(** An environment without any trace context. *)
Definition bareEnv : PublisherEnv :=
  {| env_activeSpan := None;
     env_xrayTraceId := None;
     env_activeSpanContext := None;
     env_topicArn := Some sampleTopic;
     env_now := "2024-01-01T00:00:00.000Z" |}.

(** An event of the publisher with an order, an amount and an override. *)
Definition orderEvent : JsVal :=
  JObject [("orderId", JString "ORD-1");
           ("amount", JNumber "12");
           ("traceparent", JString originalId)].

(** An event whose override is a number. *)
Definition numberOverrideEvent : JsVal :=
  JObject [("traceparent", JNumber "5")].

(** The attribute name the publisher handler adds for a truthy member. *)
Definition optionalKey {engine : Engine} (event : JsVal) (k : string) : gset string :=
  if Js.ToBoolean (Publisher.member event k) then {[ k ]} else ∅.

(** A message attribute as SQS hands it to the consumer when the relay
    passed it on unchanged. *)
Definition delivered (a : SnsAttribute) : option MessageAttribute :=
  match StringValue a with
  | JString text => Some {| stringValue := Some text; dataType := DataType a |}
  | _ => None
  end.

(** What the publisher handler sends for [orderEvent]. *)
Definition sentCommand : PublishCommandInput :=
  match fst (Publisher.handler (engine := sampleEngine) sampleEnv orderEvent countingRNG) with
  | inr cmd => cmd
  | inl _ => {| TopicArn := None; Message := ""; MessageAttributes := ∅ |}
  end.

(** A notification whose inner message is itself a notification. *)
Definition nestedRecord : InboundRecord :=
  sqsRecord "m-nested"
    (JSON.q "{'Type':'Notification','Message':'{\'Type\':\'Notification\',\'Message\':\'{}\'}'}")
    ∅.

(** A notification with an empty inner message. *)
Definition emptyNotification : InboundRecord :=
  sqsRecord "m-empty" (JSON.q "{'Type':'Notification','Message':''}") ∅.

(** A record whose body is the JSON text [null]. *)
Definition nullRecord : InboundRecord := sqsRecord "m-null" "null" ∅.

(** The test [body.Type === "Notification" && body.Message] of
    [parseMessage], for a parsed body other than [null]. *)
Definition isEnvelope {engine : Engine} (parsed : JsVal) : bool :=
  strictEqString (Publisher.member parsed "Type") "Notification" &&
  Js.ToBoolean (Publisher.member parsed "Message").

(** An event that looks like an SQS delivery and like an HTTP request. *)
Definition mixedEvent : JsVal :=
  JObject [("httpMethod", JString "GET");
           ("Records", JArray [JObject [("eventSource", JString "aws:sqs")];
                               JObject [("eventSource", JString "aws:s3")]])].

(** An API Gateway event with a trace header, and callbacks for it. *)
Definition apiEvent : InboundRecord :=
  {| messageId := ""; receiptHandle := ""; body := "";
     eventSourceARN := None; messageAttributes := None;
     headers := Some {[ "traceparent" := originalId ]} |}.

Definition okResponse : JsVal :=
  JObject [("statusCode", JNumber "200"); ("body", JString "ok")].

Definition okLogic : APIHandler.BusinessLogic nat :=
  fun _ _ w => (inr okResponse, S w).

(** * Properties *)

(** ** Splitting and joining *)

Section StringFacts.

Lemma split_not_nil sep s : JsString.split sep s <> [].
Proof.
  destruct s as [|c r]; simpl; [discriminate|].
  destruct (Ascii.eqb c sep); [discriminate|].
  destruct (JsString.split sep r); discriminate.
Qed.

Lemma split_free sep s : free sep s = true -> JsString.split sep s = [s].
Proof.
  induction s as [|c r IH]; simpl; [reflexivity|].
  intros Hfree. apply andb_prop in Hfree as [Hc Hr].
  apply negb_true_iff in Hc. rewrite Hc, (IH Hr). reflexivity.
Qed.

Lemma split_app sep s1 s2 :
  free sep s1 = true ->
  JsString.split sep (s1 ++ String sep s2) = s1 :: JsString.split sep s2.
Proof.
  induction s1 as [|c r IH]; simpl.
  - intros _. rewrite Ascii.eqb_refl. reflexivity.
  - intros Hfree. apply andb_prop in Hfree as [Hc Hr].
    apply negb_true_iff in Hc. rewrite Hc, (IH Hr). reflexivity.
Qed.

Lemma join_split sep s :
  JsString.join (String sep "") (JsString.split sep s) = s.
Proof.
  induction s as [|c r IH]; simpl; [reflexivity|].
  destruct (Ascii.eqb_spec c sep) as [->|Hne].
  - pose proof (split_not_nil sep r) as Hnil.
    destruct (JsString.split sep r) as [|h t]; [contradiction|].
    simpl in *. rewrite IH. reflexivity.
  - pose proof (split_not_nil sep r) as Hnil.
    destruct (JsString.split sep r) as [|h t]; [contradiction|].
    destruct t as [|t1 t']; simpl in *; rewrite <- IH; reflexivity.
Qed.

Lemma hex_not_dash c : isLowerHex c = true -> negb (Ascii.eqb c dash) = true.
Proof.
  intros Hhex. destruct (Ascii.eqb_spec c dash) as [->|_]; [|reflexivity].
  discriminate Hhex.
Qed.

Lemma hex_free s : JsString.forallb isLowerHex s = true -> free dash s = true.
Proof.
  induction s as [|c r IH]; simpl; [reflexivity|].
  intros Hhex. apply andb_prop in Hhex as [Hc Hr].
  unfold free in *. simpl. rewrite (hex_not_dash c Hc), (IH Hr). reflexivity.
Qed.



(** The text of four dash-free fields splits into those fields. *)
Lemma split_four v t s f :
  free dash v = true -> free dash t = true ->
  free dash s = true -> free dash f = true ->
  JsString.split dash (v ++ "-" ++ t ++ "-" ++ s ++ "-" ++ f) = [v; t; s; f].
Proof.
  intros Hv Ht Hs Hf. change ("-" ++ ?x) with (String dash x).
  rewrite (split_app dash v _ Hv).
  change ("-" ++ ?x) with (String dash x). rewrite (split_app dash t _ Ht).
  change ("-" ++ ?x) with (String dash x). rewrite (split_app dash s _ Hs).
  rewrite (split_free dash f Hf). reflexivity.
Qed.

(** What [wellFormedTraceparent] says about a text. *)
Lemma wellFormed_fields text :
  wellFormedTraceparent text = true ->
  exists v t s f,
    JsString.split dash text = [v; t; s; f] /\
    text = v ++ "-" ++ t ++ "-" ++ s ++ "-" ++ f /\
    String.length v = 2%nat /\ String.length t = 32%nat /\
    String.length s = 16%nat /\ String.length f = 2%nat /\
    JsString.forallb isLowerHex v = true /\ JsString.forallb isLowerHex t = true /\
    JsString.forallb isLowerHex s = true /\ JsString.forallb isLowerHex f = true.
Proof.
  unfold wellFormedTraceparent. intros Hwf.
  pose proof (join_split dash text) as Hjoin.
  destruct (JsString.split dash text) as [|v [|t [|s [|f [|x rest]]]]];
    try discriminate Hwf.
  repeat (apply andb_prop in Hwf as [Hwf ?]).
  exists v, t, s, f. simpl in Hjoin.
  repeat match goal with
         | H : (_ =? _)%nat = true |- _ => apply Nat.eqb_eq in H
         end.
  repeat split; try assumption. symmetry. exact Hjoin.
Qed.

End StringFacts.

(** ** The Context Recoverer *)

Section Recoverer.
Import ObservabilityManager.



(** The recoverer returns the first non-empty slot, unchecked. *)
Lemma extract_firstNonEmpty record :
  extractIncomingTraceContext record =
  contextOfText <$> firstNonEmpty (carrierSlots record).
Proof.
  unfold extractIncomingTraceContext, carrierSlots, fromHeaders.
  destruct (messageAttributes record) as [attrs|]; simpl.
  - destruct (attrString attrs "traceparent") as [p|]; simpl.
    + destruct (JsString.truthy p) eqn:Hp; simpl; [rewrite Hp; reflexivity|].
      destruct (attrString attrs "w3c_traceparent_orig") as [b|]; simpl.
      * destruct (JsString.truthy b); [reflexivity|].
        destruct (headers record) as [hs|]; [|reflexivity].
        destruct (hs !! "traceparent") as [h|]; [|reflexivity].
        destruct (JsString.truthy h); reflexivity.
      * destruct (headers record) as [hs|]; [|reflexivity].
        destruct (hs !! "traceparent") as [h|]; [|reflexivity].
        destruct (JsString.truthy h); reflexivity.
    + destruct (attrString attrs "w3c_traceparent_orig") as [b|]; simpl.
      * destruct (JsString.truthy b); [reflexivity|].
        destruct (headers record) as [hs|]; [|reflexivity].
        destruct (hs !! "traceparent") as [h|]; [|reflexivity].
        destruct (JsString.truthy h); reflexivity.
      * destruct (headers record) as [hs|]; [|reflexivity].
        destruct (hs !! "traceparent") as [h|]; [|reflexivity].
        destruct (JsString.truthy h); reflexivity.
  - destruct (headers record) as [hs|]; [|reflexivity].
    destruct (hs !! "traceparent") as [h|]; [|reflexivity].
    destruct (JsString.truthy h); reflexivity.
Qed.

(** A non-empty primary slot is what is returned, whatever the backup. *)
Lemma primary_shadows_backup record attrs p :
  messageAttributes record = Some attrs ->
  attrString attrs "traceparent" = Some p ->
  JsString.truthy p = true ->
  extractIncomingTraceContext record = Some (contextOfText p).
Proof.
  intros Hattrs Hp Htruthy. rewrite extract_firstNonEmpty.
  unfold carrierSlots. rewrite Hattrs, Hp. cbn. rewrite Htruthy. reflexivity.
Qed.

(** The backup slot is read when the primary slot is missing. *)
Lemma backup_when_primary_missing record attrs b :
  messageAttributes record = Some attrs ->
  attrString attrs "traceparent" = None ->
  attrString attrs "w3c_traceparent_orig" = Some b ->
  JsString.truthy b = true ->
  extractIncomingTraceContext record = Some (contextOfText b).
Proof.
  intros Hattrs Hp Hb Htruthy. rewrite extract_firstNonEmpty.
  unfold carrierSlots. rewrite Hattrs, Hp, Hb. cbn. rewrite Htruthy. reflexivity.
Qed.

Lemma firstNonEmpty_Some slots text :
  firstNonEmpty slots = Some text -> Some text ∈ slots /\ JsString.truthy text = true.
Proof.
  induction slots as [|[s|] rest IH]; cbn; [discriminate| |].
  - destruct (JsString.truthy s) eqn:Hs.
    + intros [= <-]. split; [apply list_elem_of_here | exact Hs].
    + intros Hrest. destruct (IH Hrest) as [Hin Ht].
      split; [apply list_elem_of_further; exact Hin | exact Ht].
  - intros Hrest. destruct (IH Hrest) as [Hin Ht].
    split; [apply list_elem_of_further; exact Hin | exact Ht].
Qed.

Lemma firstNonEmpty_None slots :
  firstNonEmpty slots = None <->
  forall text, Some text ∈ slots -> JsString.truthy text = false.
Proof.
  induction slots as [|[s|] rest IH]; cbn.
  - split; [|reflexivity]. intros _ text Hin. inversion Hin.
  - destruct (JsString.truthy s) eqn:Hs.
    + split; [discriminate|]. intros Hall.
      rewrite (Hall s (list_elem_of_here _ _)) in Hs. discriminate Hs.
    + rewrite IH. split.
      * intros Hall text Hin. apply elem_of_cons in Hin as [[= ->]|Hin];
          [exact Hs | exact (Hall text Hin)].
      * intros Hall text Hin. apply Hall, list_elem_of_further, Hin.
  - rewrite IH. split.
    + intros Hall text Hin. apply elem_of_cons in Hin as [Heq|Hin];
        [discriminate Heq | exact (Hall text Hin)].
    + intros Hall text Hin. apply Hall, list_elem_of_further, Hin.
Qed.

Lemma parse_text text :
  JsString.truthy text = true -> Codec.parse text = Some (contextOfText text).
Proof.
  intros Htext. unfold Codec.parse. rewrite extract_firstNonEmpty.
  unfold carrierSlots, carrierRecord, sqsRecord, attrString. simpl.
  rewrite lookup_singleton_eq. simpl. rewrite Htext. reflexivity.
Qed.

End Recoverer.

Section RecovererClaims.
Import ObservabilityManager.

(** C1 (the code departs from the claim).  At a record whose primary slot
    was rewritten by the relay and whose backup slot still holds the
    original identifier, [extractIncomingTraceContext] returns the primary
    slot's value: the relay's identifier is selected although the backup
    slot is present, and the original trace id is lost. *)
Theorem C1_primary_selected_over_backup :
  carrierSlots relayedRecord = [Some relayId; Some originalId; None] /\
  extractIncomingTraceContext relayedRecord =
    Some {| traceId := Some "11111111111111111111111111111111";
            spanId := Some "2222222222222222";
            traceparent := relayId |} /\
  extractIncomingTraceContext relayedRecord <> Some (contextOfText originalId).
Proof.
  assert (Hslots : carrierSlots relayedRecord = [Some relayId; Some originalId; None]).
  { unfold carrierSlots, relayedRecord, sqsRecord, attrString. simpl.
    rewrite lookup_insert_ne by discriminate.
    rewrite lookup_singleton_eq, lookup_insert_eq. reflexivity. }
  split; [exact Hslots|].
  rewrite extract_firstNonEmpty, Hslots. simpl.
  split; [reflexivity | discriminate].
Qed.

(** C3, counterexample.  A record whose primary slot holds a text that is
    not a well-formed trace identifier: the slot is not treated as absent,
    the text is returned as the recovered context. *)
Lemma C3_malformed_text_returned :
  wellFormedTraceparent "not-a-traceparent" = false /\
  exists tc,
    extractIncomingTraceContext (carrierRecord "not-a-traceparent") = Some tc /\
    wellFormedTraceparent (traceparent tc) = false.
Proof.
  split; [reflexivity|].
  exists (contextOfText "not-a-traceparent"). split; [|reflexivity].
  apply (parse_text "not-a-traceparent"). reflexivity.
Qed.

(** C3, as amended.  For every inbound record the Context Recoverer
    returns without throwing and checks no format.  It returns nothing
    exactly when every carrier of the record (the two message attributes
    and the header) is missing or empty.  Otherwise the [traceparent] it
    returns is the non-empty text of one of the record's carriers,
    verbatim, with [traceId] and [spanId] its second and third
    dash-separated segments ([undefined] when it has fewer). *)
Theorem C3_carrier_returned_unchecked (record : InboundRecord) :
  (extractIncomingTraceContext record = None <->
   forall text, Some text ∈ carrierSlots record -> JsString.truthy text = false) /\
  forall tc,
    extractIncomingTraceContext record = Some tc ->
    Some (traceparent tc) ∈ carrierSlots record /\
    JsString.truthy (traceparent tc) = true /\
    traceId tc = JsString.split dash (traceparent tc) !! 1%nat /\
    spanId tc = JsString.split dash (traceparent tc) !! 2%nat.
Proof.
  rewrite extract_firstNonEmpty. split.
  - rewrite <- firstNonEmpty_None.
    destruct (firstNonEmpty (carrierSlots record)); cbn; split; congruence.
  - intros tc. destruct (firstNonEmpty (carrierSlots record)) as [text|] eqn:Hfirst;
      cbn; [|discriminate].
    intros [= <-]. cbn [traceparent traceId spanId contextOfText].
    destruct (firstNonEmpty_Some _ _ Hfirst) as [Hin Htruthy]. auto.
Qed.

End RecovererClaims.

(** ** The codec: parsing what was serialized *)

Section CodecFacts.
Import ObservabilityManager.

Lemma flagsText_cases z : flagsText z = "00" \/ flagsText z = "01".
Proof. unfold flagsText. destruct (Z.eqb _ 0); [left|right]; reflexivity. Qed.

Lemma flagsText_free z : free dash (flagsText z) = true.
Proof. destruct (flagsText_cases z) as [-> | ->]; reflexivity. Qed.

(** The fields of a text put together by the serializer. *)
Lemma split_formatted t s f :
  JsString.forallb isLowerHex t = true ->
  JsString.forallb isLowerHex s = true ->
  free dash f = true ->
  JsString.split dash ("00-" ++ t ++ "-" ++ s ++ "-" ++ f) = ["00"; t; s; f].
Proof.
  intros Ht Hs Hf.
  change ("00-" ++ t ++ "-" ++ s ++ "-" ++ f)
    with ("00" ++ "-" ++ t ++ "-" ++ s ++ "-" ++ f).
  apply split_four; auto using hex_free.
Qed.

Lemma contextOfText_formatted t s f :
  JsString.forallb isLowerHex t = true ->
  JsString.forallb isLowerHex s = true ->
  free dash f = true ->
  contextOfText ("00-" ++ t ++ "-" ++ s ++ "-" ++ f) =
  {| traceId := Some t; spanId := Some s;
     traceparent := "00-" ++ t ++ "-" ++ s ++ "-" ++ f |}.
Proof.
  intros Ht Hs Hf. unfold contextOfText.
  rewrite (split_formatted t s f Ht Hs Hf). reflexivity.
Qed.

Lemma wellFormed_truthy text :
  wellFormedTraceparent text = true -> JsString.truthy text = true.
Proof. destruct text; [discriminate | reflexivity]. Qed.

(** Both sides of the round trip, computed. *)
Lemma reparse_fields text traceFlags v t s f :
  wellFormedTraceparent text = true ->
  JsString.split dash text = [v; t; s; f] ->
  Codec.parse text =
    Some {| traceId := Some t; spanId := Some s; traceparent := text |} /\
  Codec.reparse text traceFlags =
    Some {| traceId := Some t; spanId := Some s;
            traceparent := "00-" ++ t ++ "-" ++ s ++ "-" ++ flagsText traceFlags |}.
Proof.
  intros Hwf Hsplit.
  destruct (wellFormed_fields text Hwf)
    as (v' & t' & s' & f' & Hsplit' & _ & _ & _ & _ & _ & _ & Ht & Hs & _).
  rewrite Hsplit in Hsplit'. injection Hsplit' as <- <- <- <-.
  assert (Hparse : Codec.parse text =
            Some {| traceId := Some t; spanId := Some s; traceparent := text |}).
  { rewrite (parse_text text (wellFormed_truthy text Hwf)).
    unfold contextOfText. rewrite Hsplit. reflexivity. }
  split; [exact Hparse|].
  unfold Codec.reparse. rewrite Hparse.
  unfold Codec.serialize, getTraceContext, formatTraceparent. simpl.
  rewrite parse_text by reflexivity.
  rewrite (contextOfText_formatted t s _ Ht Hs (flagsText_free traceFlags)).
  reflexivity.
Qed.

(** C9, counterexample.  A well-formed text with flags field [03]: for no
    flags of the continuing span does parsing the serialized parse result
    give what parsing the text gave. *)
Lemma C9_flags_not_preserved :
  wellFormedTraceparent flaggedId = true /\
  ~ exists traceFlags, Codec.reparse flaggedId traceFlags = Codec.parse flaggedId.
Proof.
  split; [reflexivity|]. intros [traceFlags Heq].
  destruct (reparse_fields flaggedId traceFlags "00"
              "68dde6a91b7146f84c4bc23f54f17b0f" "50d362e330737a0f" "03"
              eq_refl eq_refl) as [Hparse Hre].
  rewrite Hparse, Hre in Heq.
  destruct (flagsText_cases traceFlags) as [Hf | Hf]; rewrite Hf in Heq;
    discriminate Heq.
Qed.

(** C9, as amended.  For every well-formed trace-context text, parsing,
    serializing the parse result and parsing again yields the same
    [traceId] and [spanId] as parsing once, with the text rebuilt under
    version [00] and flags [00] or [01]; the whole result equals that of
    parsing once exactly when the text's version field is [00] and its
    flags field is the rendering of the span's sampled bit. *)
Theorem C9_roundtrip_stable (text : string) (traceFlags : Z) :
  wellFormedTraceparent text = true ->
  exists v t s f,
    JsString.split dash text = [v; t; s; f] /\
    Codec.parse text =
      Some {| traceId := Some t; spanId := Some s; traceparent := text |} /\
    Codec.reparse text traceFlags =
      Some {| traceId := Some t; spanId := Some s;
              traceparent := "00-" ++ t ++ "-" ++ s ++ "-" ++ flagsText traceFlags |} /\
    (Codec.reparse text traceFlags = Codec.parse text <->
     v = "00" /\ f = flagsText traceFlags).
Proof.
  intros Hwf.
  destruct (wellFormed_fields text Hwf)
    as (v & t & s & f & Hsplit & Htext & _ & _ & _ & _ & Hv & Ht & Hs & Hf).
  exists v, t, s, f.
  destruct (reparse_fields text traceFlags v t s f Hwf Hsplit) as [Hparse Hre].
  split; [exact Hsplit|]. split; [exact Hparse|]. split; [exact Hre|].
  rewrite Hparse, Hre. split.
  - intros [= Heq].
    assert (Hfields : JsString.split dash
              ("00-" ++ t ++ "-" ++ s ++ "-" ++ flagsText traceFlags) = [v; t; s; f])
      by (rewrite Heq; exact Hsplit).
    rewrite (split_formatted t s _ Ht Hs (flagsText_free traceFlags)) in Hfields.
    injection Hfields as <- <-. split; reflexivity.
  - intros [-> ->]. rewrite Htext. reflexivity.
Qed.

Lemma C9_roundtrip_stable_witness :
  exists v t s f,
    JsString.split dash originalId = [v; t; s; f] /\
    Codec.parse originalId =
      Some {| traceId := Some t; spanId := Some s; traceparent := originalId |} /\
    Codec.reparse originalId 1 =
      Some {| traceId := Some t; spanId := Some s;
              traceparent := "00-" ++ t ++ "-" ++ s ++ "-" ++ flagsText 1 |} /\
    (Codec.reparse originalId 1 = Codec.parse originalId <->
     v = "00" /\ f = flagsText 1).
Proof. apply (C9_roundtrip_stable originalId 1). reflexivity. Defined.

End CodecFacts.

(** ** The fallback generator *)

Section Generator.
Import ObservabilityManager.

Lemma floorTimes16_lt x : (floorTimes16 x < 16)%N.
Proof.
  unfold floorTimes16.
  assert (Hpos : (2 ^ expo x <> 0)%N) by (apply N.pow_nonzero; discriminate).
  pose proof (N.mod_lt (num x) (2 ^ expo x) Hpos) as Hlt.
  apply N.Div0.div_lt_upper_bound. lia.
Qed.

(** A number below 16 prints in base 16 as one lowercase hex digit. *)
Lemma toString16_digit n :
  (n < 16)%N -> exists c, toString16 n = String c "" /\ isLowerHex c = true.
Proof.
  intros Hlt. rewrite <- (N2Nat.id n).
  assert (Hk : (N.to_nat n < 16)%nat) by lia.
  generalize (N.to_nat n) Hk. clear n Hlt Hk. intros k Hk.
  do 16 (destruct k as [|k]; [eexists; split; reflexivity|]).
  lia.
Qed.

Lemma randomHex_spec n g :
  String.length (fst (randomHex n g)) = n /\
  JsString.forallb isLowerHex (fst (randomHex n g)) = true /\
  calls (snd (randomHex n g)) = (calls g + n)%nat /\
  outcomes (snd (randomHex n g)) = outcomes g.
Proof.
  revert g. induction n as [|n IH]; intros g; simpl.
  - repeat split. lia.
  - destruct (IH {| outcomes := outcomes g; calls := S (calls g) |})
      as (Hlen & Hhex & Hcalls & Hout).
    destruct (randomHex n _) as [rest g2]. simpl in *.
    destruct (toString16_digit _ (floorTimes16_lt (outcomes g (calls g))))
      as (c & -> & Hc).
    change (String c "" ++ rest) with (String c rest).
    simpl. rewrite Hlen, Hc, Hhex, Hcalls, Hout. repeat split. lia.
Qed.

Lemma wellFormed_formatted t s f :
  String.length t = 32%nat -> JsString.forallb isLowerHex t = true ->
  String.length s = 16%nat -> JsString.forallb isLowerHex s = true ->
  f = "00" \/ f = "01" ->
  wellFormedTraceparent ("00-" ++ t ++ "-" ++ s ++ "-" ++ f) = true.
Proof.
  intros Hlt Ht Hls Hs Hf. unfold wellFormedTraceparent.
  assert (Hfree : free dash f = true) by (destruct Hf as [-> | ->]; reflexivity).
  rewrite (split_formatted t s f Ht Hs Hfree).
  rewrite Hlt, Hls, Ht, Hs. destruct Hf as [-> | ->]; reflexivity.
Qed.

Lemma generateTraceparent_shape g :
  exists t s,
    fst (generateTraceparent g) = "00-" ++ t ++ "-" ++ s ++ "-01" /\
    String.length t = 32%nat /\ JsString.forallb isLowerHex t = true /\
    String.length s = 16%nat /\ JsString.forallb isLowerHex s = true /\
    calls (snd (generateTraceparent g)) = (calls g + 48)%nat.
Proof.
  unfold generateTraceparent.
  pose proof (randomHex_spec 32 g) as H32.
  destruct (randomHex 32 g) as [t g1]. cbn [fst snd] in H32.
  pose proof (randomHex_spec 16 g1) as H16.
  destruct (randomHex 16 g1) as [s g2]. cbn [fst snd] in H16.
  destruct H32 as (Hlt & Ht & Hc1 & _), H16 as (Hls & Hs & Hc2 & _).
  exists t, s. cbn [fst snd]. split; [reflexivity|].
  repeat (split; [assumption|]). lia.
Qed.

(** C8.  Whatever [Math.random] yields, the fallback generator (the
    publisher's [generateW3CTraceparent] and the library's
    [generateFallbackTrace] alike) returns a text [00-t-s-01] where [t]
    has exactly 32 and [s] exactly 16 lowercase hex digits; the text is
    well-formed, and for the identifier [x] it denotes, serializing [x]
    gives the text back and parsing what was serialized gives [x]. *)
Theorem C8_generated_identifier (g : RNG) :
  exists t s,
    let text := "00-" ++ t ++ "-" ++ s ++ "-01" in
    let x := {| traceId := Some t; spanId := Some s; traceparent := text |} in
    fst (generateW3CTraceparent g) = text /\
    fst (SNSPublisher.generateFallbackTrace g) = text /\
    String.length t = 32%nat /\ JsString.forallb isLowerHex t = true /\
    String.length s = 16%nat /\ JsString.forallb isLowerHex s = true /\
    wellFormedTraceparent text = true /\
    Codec.serialize x 1 = Some x /\
    Codec.parse (traceparent x) = Some x.
Proof.
  destruct (generateTraceparent_shape g) as (t & s & Htext & Hlt & Ht & Hls & Hs & _).
  exists t, s. cbv zeta.
  split; [exact Htext|]. split; [exact Htext|].
  repeat (split; [assumption|]).
  split; [apply wellFormed_formatted; auto|].
  split; [reflexivity|].
  cbn [traceparent]. rewrite parse_text by reflexivity.
  apply f_equal. apply (contextOfText_formatted t s "01"); auto.
Qed.

End Generator.

(** ** The Context Source of the publisher *)

Section ContextSource.
Context {engine : Engine}.
Import Publisher.


Lemma traceparentOfSpanContext_truthy sc text :
  traceparentOfSpanContext sc = Some text -> JsString.truthy text = true.
Proof.
  unfold traceparentOfSpanContext.
  destruct (_ && _); [|discriminate]. intros [= <-]. reflexivity.
Qed.

Lemma traceparentOfXray_truthy x text :
  traceparentOfXray x = Some text -> JsString.truthy text = true.
Proof.
  unfold traceparentOfXray.
  destruct (xrayMatch x) as [[[[ts suffix] parent] sampled]|]; [|discriminate].
  intros [= <-]. reflexivity.
Qed.

Lemma fromActiveSpan_truthy env text :
  fromActiveSpan env = Some text -> JsString.truthy text = true.
Proof.
  unfold fromActiveSpan. destruct (env_activeSpan env) as [[sc|]|]; try discriminate.
  apply traceparentOfSpanContext_truthy.
Qed.

Lemma fromXrayEnv_truthy env text :
  fromXrayEnv env = Some text -> JsString.truthy text = true.
Proof.
  unfold fromXrayEnv. destruct (env_xrayTraceId env) as [x|]; [|discriminate].
  destruct (JsString.truthy x); [|discriminate]. apply traceparentOfXray_truthy.
Qed.

Lemma fromActiveContext_truthy env text :
  fromActiveContext env = Some text -> JsString.truthy text = true.
Proof.
  unfold fromActiveContext. destruct (env_activeSpanContext env); [|discriminate].
  apply traceparentOfSpanContext_truthy.
Qed.

(** What the environment offers is never the empty string. *)
Lemma getTraceparentFromActiveSpan_truthy env text :
  getTraceparentFromActiveSpan env = Some text -> JsString.truthy text = true.
Proof.
  unfold getTraceparentFromActiveSpan.
  destruct (fromActiveSpan env) as [t1|] eqn:H1.
  { intros [= <-]. eauto using fromActiveSpan_truthy. }
  destruct (fromXrayEnv env) as [t2|] eqn:H2.
  { intros [= <-]. eauto using fromXrayEnv_truthy. }
  apply fromActiveContext_truthy.
Qed.

Lemma generated_truthy g : JsString.truthy (fst (generateW3CTraceparent g)) = true.
Proof.
  destruct (generateTraceparent_shape g) as (t & s & Htext & _).
  unfold generateW3CTraceparent. rewrite Htext. reflexivity.
Qed.

(** The chain of the Context Source: the override when it is truthy, else
    what the environment offers, else a generated identifier. *)
Lemma contextSource_chain env incoming g :
  contextSource env incoming g =
    (if Js.ToBoolean incoming then (incoming, g)
     else match getTraceparentFromActiveSpan env with
          | Some text => (JString text, g)
          | None => (JString (fst (generateW3CTraceparent g)),
                     snd (generateW3CTraceparent g))
          end).
Proof.
  unfold contextSource. destruct (Js.ToBoolean incoming); [reflexivity|].
  destruct (getTraceparentFromActiveSpan env) as [text|] eqn:Hotel.
  - rewrite (getTraceparentFromActiveSpan_truthy env text Hotel). reflexivity.
  - destruct (generateW3CTraceparent g). reflexivity.
Qed.

Lemma contextSource_truthy env incoming g :
  Js.ToBoolean (fst (contextSource env incoming g)) = true.
Proof.
  rewrite contextSource_chain. destruct (Js.ToBoolean incoming) eqn:Hin; [exact Hin|].
  destruct (getTraceparentFromActiveSpan env) as [text|] eqn:Hotel.
  - exact (getTraceparentFromActiveSpan_truthy env text Hotel).
  - exact (generated_truthy g).
Qed.

(** [Math.random] is drawn from only when the identifier is generated. *)
Lemma contextSource_rng env incoming g :
  snd (contextSource env incoming g) =
    (if Js.ToBoolean incoming then g
     else match getTraceparentFromActiveSpan env with
          | Some _ => g
          | None => snd (generateW3CTraceparent g)
          end).
Proof.
  unfold contextSource. destruct (Js.ToBoolean incoming); [reflexivity|].
  destruct (getTraceparentFromActiveSpan env) as [text|] eqn:Hotel.
  - rewrite (getTraceparentFromActiveSpan_truthy env text Hotel). reflexivity.
  - destruct (generateW3CTraceparent g). reflexivity.
Qed.

Lemma traceparentSource_label env incoming :
  traceparentSource incoming (getTraceparentFromActiveSpan env) =
    (if Js.ToBoolean incoming then "incoming"
     else match getTraceparentFromActiveSpan env with
          | Some _ => "otel"
          | None => "generated"
          end).
Proof.
  unfold traceparentSource. destruct (Js.ToBoolean incoming); [reflexivity|].
  destruct (getTraceparentFromActiveSpan env) as [text|] eqn:Hotel; [|reflexivity].
  cbn [JsString.truthy_opt].
  rewrite (getTraceparentFromActiveSpan_truthy env text Hotel). reflexivity.
Qed.

Lemma generated_wf g : wellFormedTraceparent (fst (generateW3CTraceparent g)) = true.
Proof.
  destruct (generateTraceparent_shape g) as (t & s & Htext & Hlt & Ht & Hls & Hs & _).
  unfold generateW3CTraceparent. rewrite Htext.
  apply (wellFormed_formatted t s "01"); auto.
Qed.

End ContextSource.

(** ** Outbound publishing *)

Section Publishing.
Context {engine : Engine}.
Import SNSPublisher.

(** The manager that [publish] creates has no span: the fallback
    generator is what fills each carrier, one call per carrier. *)
Lemma publish_sends serviceName topicArn message options g :
  message <> JUndefined ->
  publish serviceName topicArn message options g =
    (let primary := fst (generateFallbackTrace g) in
     let g1 := snd (generateFallbackTrace g) in
     let backup := fst (generateFallbackTrace g1) in
     (ret (commandInput topicArn (JSON_stringify message)
             (<["w3c_traceparent_orig" := stringAttribute (JString backup)]>
                (<["traceparent" := stringAttribute (JString primary)]>
                   (default ∅ (opt_messageAttributes options))))
             (opt_publishOptions options)),
      snd (generateFallbackTrace g1))).
Proof.
  intros Hmsg. unfold publish.
  change (ObservabilityManager.getTraceContext (ObservabilityManager.new serviceName))
    with (@None TraceContext).
  unfold traceparentOrFallback.
  destruct (generateFallbackTrace g) as [primary g1]. cbn [fst snd].
  destruct (generateFallbackTrace g1) as [backup g2]. cbn [fst snd].
  destruct message; try reflexivity. contradiction.
Qed.

Lemma publish_undefined serviceName topicArn options g :
  publish serviceName topicArn JUndefined options g =
    (throw (raise (ReadOfNullish "length")), g).
Proof. reflexivity. Qed.

(** C2 (the code departs from the claim).  [SNSPublisher.publish] fills
    the two carriers from two separate calls of the fallback generator.
    With [Math.random] returning 0/64, 1/64, 2/64, ... the message that is
    sent carries one identifier in [traceparent] and another one in
    [w3c_traceparent_orig]. *)
Theorem C2_publish_carriers_differ :
  exists cmd,
    fst (publish "order-publisher" sampleTopic sampleMessage noOptions countingRNG)
      = ret cmd /\
    MessageAttributes cmd !! "traceparent" =
      Some (stringAttribute
              (JString "00-00001111222233334444555566667777-88889999aaaabbbb-01")) /\
    MessageAttributes cmd !! "w3c_traceparent_orig" =
      Some (stringAttribute
              (JString "00-ccccddddeeeeffff0000111122223333-4444555566667777-01")) /\
    MessageAttributes cmd !! "traceparent" <>
      MessageAttributes cmd !! "w3c_traceparent_orig".
Proof.
  rewrite publish_sends by discriminate. cbn [fst].
  eexists. split; [reflexivity|].
  unfold commandInput. cbn [MessageAttributes noOptions opt_publishOptions
    opt_messageAttributes mbind option_bind default].
  rewrite lookup_insert_ne by discriminate.
  rewrite !lookup_insert_eq.
  assert (H1 : fst (generateFallbackTrace countingRNG) =
               "00-00001111222233334444555566667777-88889999aaaabbbb-01")
    by (vm_compute; reflexivity).
  assert (H2 : fst (generateFallbackTrace (snd (generateFallbackTrace countingRNG))) =
               "00-ccccddddeeeeffff0000111122223333-4444555566667777-01")
    by (vm_compute; reflexivity).
  rewrite H1, H2. repeat split. discriminate.
Qed.

End Publishing.

Section PublishFrame.
Import SNSPublisher.

(** C10 (the code departs from the claim).  [options.publishOptions] is
    spread into the command input after [MessageAttributes]: whenever it
    carries a [MessageAttributes] member, that member is the attribute map
    of the message that is sent, whole, in place of the map the library
    built.  The message then has the carriers only if the caller put them
    there. *)
Theorem C10_publish_options_replace_map {engine : Engine} (serviceName topicArn : string)
    (message : JsVal) (options : Options) (replacement : gmap string SnsAttribute)
    (g : RNG) :
  message <> JUndefined ->
  opt_publishOptions options ≫= po_MessageAttributes = Some replacement ->
  exists cmd,
    fst (publish serviceName topicArn message options g) = ret cmd /\
    MessageAttributes cmd = replacement.
Proof.
  intros Hmsg Hextra. rewrite publish_sends by exact Hmsg. cbn [fst].
  eexists. split; [reflexivity|].
  unfold commandInput. cbn [MessageAttributes]. rewrite Hextra. reflexivity.
Qed.

(** At a caller whose [publishOptions] carry one business attribute, the
    message is sent without either carrier. *)
Lemma C10_publish_options_replace_map_witness :
  exists cmd,
    fst (publish (engine := sampleEngine) "order-publisher" sampleTopic sampleMessage
           overridingOptions countingRNG) = ret cmd /\
    MessageAttributes cmd !! "traceparent" = None /\
    MessageAttributes cmd !! "w3c_traceparent_orig" = None.
Proof.
  destruct (C10_publish_options_replace_map (engine := sampleEngine) "order-publisher"
              sampleTopic sampleMessage overridingOptions
              {[ "priority" := stringAttribute (JString "high") ]} countingRNG)
    as (cmd & Hrun & Hmap); [discriminate | reflexivity |].
  exists cmd. rewrite Hmap. split; [exact Hrun|].
  split; apply lookup_singleton_ne; discriminate.
Defined.

End PublishFrame.

(** ** The publisher handler's carriers *)

Section HandlerCarriers.
Context {engine : Engine}.
Import Publisher.

Lemma buildAttributes_carriers event transactionType orderId traceparent attrs :
  buildAttributes event transactionType orderId traceparent = ret attrs ->
  attrs !! "traceparent" = Some (stringAttribute traceparent) /\
  attrs !! "w3c_traceparent_orig" = Some (stringAttribute traceparent).
Proof.
  unfold buildAttributes, bind, ret.
  destruct (Js.getProp event "amount") as [e|amount]; [discriminate|].
  destruct (if Js.ToBoolean amount then _ else _) as [e|attrs1]; [discriminate|].
  destruct (Js.getProp event "customerId") as [e|customerId]; [discriminate|].
  destruct (Js.getProp event "reason") as [e|reason]; [discriminate|].
  intros [= <-]. split.
  - rewrite lookup_insert_ne by discriminate. apply lookup_insert_eq.
  - apply lookup_insert_eq.
Qed.

(** Whenever the publisher handler reaches [sns.send], both carriers of
    the message hold the one value the Context Source chose. *)
Lemma handler_carriers_equal env event g cmd :
  fst (handler env event g) = ret cmd ->
  exists chosen,
    MessageAttributes cmd !! "traceparent" = Some (stringAttribute chosen) /\
    MessageAttributes cmd !! "w3c_traceparent_orig" = Some (stringAttribute chosen).
Proof.
  unfold handler.
  destruct (Js.getProp _ "transactionType") as [e|tt]; [discriminate|].
  destruct (if Js.nullish _ then _ else _) as [orderId g1].
  destruct (contextSource env _ g1) as [chosen g2]. cbn [fst].
  unfold bind, ret.
  destruct (callSplit chosen) as [e|parts]; [discriminate|].
  destruct (buildAttributes _ _ _ chosen) as [e|attrs] eqn:Hattrs; [discriminate|].
  intros [= <-]. exists chosen. cbn [MessageAttributes].
  exact (buildAttributes_carriers _ _ _ _ _ Hattrs).
Qed.

End HandlerCarriers.

(** ** The Envelope Unwrapper and the batch loop *)

Section BatchFacts.
Context {engine : Engine}.
Variable World : Type.
Implicit Types (businessLogic : BusinessLogic World) (w : World).
Implicit Types (records : list InboundRecord) (entries : list ResultEntry).
Local Open Scope list_scope.

Lemma failuresOf_app entries1 entries2 :
  failuresOf (entries1 ++ entries2) = failuresOf entries1 ++ failuresOf entries2.
Proof. unfold failuresOf. rewrite List.filter_app, map_app. reflexivity. Qed.

Lemma processRecord_entry businessLogic record acc w :
  processRecord World businessLogic record acc w =
    (extend acc [fst (entryOf World businessLogic record w)],
     snd (entryOf World businessLogic record w)).
Proof.
  unfold processRecord, entryOf, extend, failuresOf.
  destruct (tryRecord World businessLogic record w) as [[err|result] w']; cbn.
  - reflexivity.
  - rewrite app_nil_r. destruct acc; reflexivity.
Qed.

(** The loop pushes one entry per record, in order. *)
Lemma processRecords_entries businessLogic records acc w :
  processRecords World businessLogic records acc w =
    (extend acc (fst (entriesOf World businessLogic records w)),
     snd (entriesOf World businessLogic records w)).
Proof.
  revert acc w. induction records as [|record rest IH]; intros acc w; cbn.
  - unfold extend, failuresOf. cbn. rewrite !app_nil_r. destruct acc; reflexivity.
  - rewrite processRecord_entry.
    destruct (entryOf World businessLogic record w) as [e w1]. cbn [fst snd].
    rewrite IH. destruct (entriesOf World businessLogic rest w1) as [es w2].
    cbn [fst snd]. f_equal. unfold extend. cbn [results failures].
    rewrite <- !app_assoc. f_equal. f_equal.
    change (e :: es) with ([e] ++ es). rewrite failuresOf_app. reflexivity.
Qed.

Lemma entryOf_messageId businessLogic record w :
  re_messageId (fst (entryOf World businessLogic record w)) = messageId record.
Proof.
  unfold entryOf.
  destruct (tryRecord World businessLogic record w) as [[err|result] w']; reflexivity.
Qed.

Lemma entriesOf_messageIds businessLogic records w :
  map re_messageId (fst (entriesOf World businessLogic records w)) =
  map messageId records.
Proof.
  revert w. induction records as [|record rest IH]; intros w; cbn; [reflexivity|].
  pose proof (entryOf_messageId businessLogic record w) as Hid.
  destruct (entryOf World businessLogic record w) as [e w1]. cbn [fst] in Hid.
  specialize (IH w1).
  destruct (entriesOf World businessLogic rest w1) as [es w2]. cbn [fst map] in *.
  rewrite Hid, IH. reflexivity.
Qed.

Lemma isError_isSuccess (r : ResultEntry) : isError r = negb (isSuccess r).
Proof. unfold isError, isSuccess. destruct (re_status r); reflexivity. Qed.

Lemma failuresOf_nil_iff entries :
  failuresOf entries = [] <-> forallb isSuccess entries = true.
Proof.
  unfold failuresOf. induction entries as [|e es IH]; cbn; [tauto|].
  rewrite isError_isSuccess. destruct (isSuccess e); cbn.
  - exact IH.
  - split; discriminate.
Qed.

(** Once [init] has succeeded, the response lists exactly the identities
    of the entries with status error, in delivery order, there is one
    entry per record, and the list is empty exactly when every entry is a
    success. *)
Lemma processBatch_after_init serviceName records context span businessLogic w :
  active context = Some (ReturnsContext span) ->
  let entries := fst (entriesOf World businessLogic records w) in
  processBatch World serviceName {| Records := Some records |} context businessLogic w =
    (ret ({| batchItemFailures := failuresOf entries |}, summarize entries),
     snd (entriesOf World businessLogic records w)) /\
  map re_messageId entries = map messageId records /\
  (failuresOf entries = [] <-> forallb isSuccess entries = true).
Proof.
  intros Hactive entries. unfold processBatch, init, getActiveSpan. rewrite Hactive.
  cbn [bind ret default Records].
  rewrite processRecords_entries. cbn [fst snd extend results failures app].
  repeat split.
  - apply entriesOf_messageIds.
  - apply failuresOf_nil_iff.
  - apply failuresOf_nil_iff.
Qed.

Lemma entryOf_outcome businessLogic record succeeds w :
  callbackOutcome World businessLogic record succeeds ->
  isSuccess (fst (entryOf World businessLogic record w)) = succeeds.
Proof.
  intros (payload & Hparse & Hcb). destruct (Hcb w) as (r & w' & Hrun & Hr).
  unfold entryOf, tryRecord. rewrite Hparse. cbn [ret].
  change (businessLogic payload _ w) with (businessLogic payload (infoOf record) w).
  rewrite Hrun. destruct succeeds.
  - destruct Hr as [v ->]. reflexivity.
  - destruct Hr as [e ->]. reflexivity.
Qed.

(** Isolation of failure in the loop: when the callback throws for the
    record at position [k] and returns for every other record, the entry
    at [k] is the only error, every other entry is a success, and no
    record is skipped. *)
Lemma entriesOf_isolated businessLogic records k rk w :
  records !! k = Some rk ->
  (forall i r, records !! i = Some r ->
               callbackOutcome World businessLogic r (negb (i =? k)%nat)) ->
  let entries := fst (entriesOf World businessLogic records w) in
  failuresOf entries = [{| itemIdentifier := messageId rk |}] /\
  length entries = length records /\
  forall i e, entries !! i = Some e -> isSuccess e = negb (i =? k)%nat.
Proof.
  revert k w. induction records as [|record rest IH]; intros k w Hk Hall; [discriminate|].
  cbn -[Nat.eqb].
  pose proof (entryOf_messageId businessLogic record w) as Hid.
  pose proof (entryOf_outcome businessLogic record _ w (Hall 0%nat record eq_refl)) as Hout.
  destruct (entryOf World businessLogic record w) as [e w1]. cbn [fst] in Hid, Hout.
  destruct k as [|k].
  - injection Hk as <-.
    assert (Hrest : forall es, es = fst (entriesOf World businessLogic rest w1) ->
              failuresOf es = [] /\ length es = length rest /\
              forall i x, es !! i = Some x -> isSuccess x = true).
    { clear IH Hid Hout e. revert w1.
      assert (Hall' : forall i r, rest !! i = Some r ->
                        callbackOutcome World businessLogic r true).
      { intros i r Hr. exact (Hall (S i) r Hr). }
      clear Hall. induction rest as [|r rest IHr]; intros w1 es ->; cbn.
      { repeat split. intros i x Hx. destruct i; discriminate Hx. }
      pose proof (entryOf_outcome businessLogic r true w1 (Hall' 0%nat r eq_refl)) as Hs.
      destruct (entryOf World businessLogic r w1) as [e1 w2]. cbn [fst] in Hs.
      destruct (IHr (fun i x Hx => Hall' (S i) x Hx) w2 _ eq_refl) as (Hf & Hl & Hs').
      destruct (entriesOf World businessLogic rest w2) as [es' w3]. cbn [fst] in *.
      unfold failuresOf in *. cbn. rewrite isError_isSuccess, Hs. cbn.
      repeat split; [exact Hf | congruence |].
      intros [|i] x Hx; [injection Hx as <-; exact Hs | exact (Hs' i x Hx)]. }
    destruct (Hrest _ eq_refl) as (Hf & Hl & Hs).
    destruct (entriesOf World businessLogic rest w1) as [es w2]. cbn [fst] in *.
    unfold failuresOf in *. cbn -[Nat.eqb]. rewrite isError_isSuccess, Hout. cbn.
    rewrite Hf, Hid. repeat split; [congruence|].
    intros [|i] x Hx; [injection Hx as <-; exact Hout | exact (Hs i x Hx)].
  - destruct (IH k w1 Hk (fun i r Hr => Hall (S i) r Hr)) as (Hf & Hl & Hs).
    destruct (entriesOf World businessLogic rest w1) as [es w2]. cbn [fst] in *.
    unfold failuresOf in *. cbn -[Nat.eqb]. rewrite isError_isSuccess, Hout. cbn.
    repeat split; [exact Hf | congruence |].
    intros [|i] x Hx; [injection Hx as <-; exact Hout | exact (Hs i x Hx)].
Qed.

(** Isolation of failure for the whole of [processBatch], once [init] has
    succeeded. *)
Lemma processBatch_isolates_failure serviceName records context span businessLogic k rk w :
  active context = Some (ReturnsContext span) ->
  records !! k = Some rk ->
  (forall i r, records !! i = Some r ->
               callbackOutcome World businessLogic r (negb (i =? k)%nat)) ->
  let entries := fst (entriesOf World businessLogic records w) in
  processBatch World serviceName {| Records := Some records |} context businessLogic w =
    (ret ({| batchItemFailures := [{| itemIdentifier := messageId rk |}] |},
          summarize entries),
     snd (entriesOf World businessLogic records w)) /\
  length entries = length records /\
  forall i e, entries !! i = Some e -> isSuccess e = negb (i =? k)%nat.
Proof.
  intros Hactive Hk Hall entries.
  destruct (processBatch_after_init serviceName records context span businessLogic w
              Hactive) as (Hrun & _ & _).
  destruct (entriesOf_isolated businessLogic records k rk w Hk Hall) as (Hf & Hl & Hs).
  fold entries in Hf, Hl, Hs. rewrite Hrun. fold entries. rewrite Hf.
  split; [reflexivity|]. split; assumption.
Qed.

End BatchFacts.

Section BatchClaims.
Context {engine : Engine}.
Local Open Scope list_scope.

(** C4 (the code departs from the claim).  A batch of three records whose
    callback throws for the middle record only, handed to [processBatch]
    with the context object of AWS Lambda: [init] calls [context.active()]
    on that object, a [TypeError] is thrown before the loop, the callback
    is never called and no outcome is returned.  With a context object
    that has [active()], the same batch gives the outcome the claim
    describes. *)
Theorem C4_batch_rejected_before_loop :
  processBatch nat "order-processor" batchOfThree lambdaContext countingLogic 0%nat =
    (throw (raise (NotCallable "context.active")), 0%nat) /\
  processBatch nat "order-processor" batchOfThree activeContext countingLogic 0%nat =
    (ret ({| batchItemFailures := [{| itemIdentifier := "m-1" |}] |},
          {| processedCount := 3; successCount := 2; errorCount := 1 |}), 3%nat).
Proof. split; vm_compute; reflexivity. Qed.

(** C5 (the code departs from the claim).  For every batch and every
    callback, [processBatch] called with the context object of AWS Lambda
    is rejected by the [TypeError] of [init]: no record gets a status and
    no [batchItemFailures] is returned. *)
Theorem C5_no_outcome_with_lambda_context (World : Type)
    (businessLogic : BusinessLogic World) (event : SqsEvent) (w : World) :
  processBatch World "order-processor" event lambdaContext businessLogic w =
    (throw (raise (NotCallable "context.active")), w) /\
  forall outcome,
    fst (processBatch World "order-processor" event lambdaContext businessLogic w)
      <> ret outcome.
Proof. split; [reflexivity | discriminate]. Qed.

Lemma parse_string_failure text :
  JSON.parseText text = None ->
  JSON.parse (JString text) = throw (raise (JsonSyntax text)).
Proof. intros Hnone. unfold JSON.parse. cbn. rewrite Hnone. reflexivity. Qed.

(** A malformed payload makes [parseMessage] throw its own [Error]. *)
Lemma parseMessage_malformed record :
  malformedPayload record = true ->
  exists text,
    parseMessage record =
      throw {| name := "Error";
               message := "Failed to parse message: " ++ fault_message (JsonSyntax text) |}.
Proof.
  unfold malformedPayload, parseMessage. intros Hbad.
  destruct (JSON.parseText (body record)) as [parsed|] eqn:Hbody.
  - destruct parsed as [| | | | | |props]; try discriminate Hbad.
    destruct (Js.lookupProp props "Type") as [type|] eqn:Htype; [|discriminate Hbad].
    destruct (Js.lookupProp props "Message") as [[| | | |inner| |]|] eqn:Hmsg;
      try discriminate Hbad.
    destruct (strictEqString type "Notification") eqn:Heq; [|discriminate Hbad].
    destruct (JsString.truthy inner) eqn:Hinner; [|discriminate Hbad].
    destruct (JSON.parseText inner) eqn:Hin; [discriminate Hbad|].
    exists inner. unfold JSON.parse at 1. cbn [Js.ToString bind ret]. rewrite Hbody.
    cbn [bind ret Js.getProp]. rewrite Htype, Hmsg. cbn [from_option id]. rewrite Heq.
    cbn [Js.ToBoolean]. rewrite Hinner, (parse_string_failure inner Hin). reflexivity.
  - exists (body record). rewrite (parse_string_failure _ Hbody). reflexivity.
Qed.


End BatchClaims.


(** * Further properties *)

(** ** Strings, queue names and the X-Ray header *)

Section MoreStringFacts.

Lemma forallb_app p s1 s2 :
  JsString.forallb p (s1 ++ s2) = JsString.forallb p s1 && JsString.forallb p s2.
Proof.
  induction s1 as [|c r IH]; cbn; [reflexivity|].
  change (String c r ++ s2) with (String c (r ++ s2)). cbn.
  rewrite IH, andb_assoc. reflexivity.
Qed.

Lemma length_app (s1 s2 : string) :
  String.length (s1 ++ s2) = (String.length s1 + String.length s2)%nat.
Proof.
  induction s1 as [|c r IH]; [reflexivity|].
  change (String c r ++ s2) with (String c (r ++ s2)). cbn. rewrite IH. reflexivity.
Qed.

Lemma split_two_pieces sep p q :
  exists h1 h2 t, JsString.split sep (p ++ String sep q) = h1 :: h2 :: t.
Proof.
  induction p as [|c r (h1 & h2 & t & IH)].
  - change ("" ++ String sep q) with (String sep q). cbn. rewrite Ascii.eqb_refl.
    pose proof (split_not_nil sep q) as Hq.
    destruct (JsString.split sep q) as [|h t]; [contradiction|]. eauto.
  - change (String c r ++ String sep q) with (String c (r ++ String sep q)). cbn.
    rewrite IH. destruct (Ascii.eqb c sep); eauto.
Qed.

(** The last piece of a text is the last piece of what follows any of its
    separators. *)
Lemma last_split_app sep p q :
  last (JsString.split sep (p ++ String sep q)) = last (JsString.split sep q).
Proof.
  induction p as [|c r IH].
  - change ("" ++ String sep q) with (String sep q). cbn. rewrite Ascii.eqb_refl.
    pose proof (split_not_nil sep q) as Hq.
    destruct (JsString.split sep q) as [|h t]; [contradiction|]. reflexivity.
  - change (String c r ++ String sep q) with (String c (r ++ String sep q)). cbn.
    destruct (split_two_pieces sep r q) as (h1 & h2 & t & Hsplit).
    rewrite Hsplit in IH |- *. destruct (Ascii.eqb c sep); exact IH.
Qed.

Lemma startsWith_app pre s : JsString.startsWith pre (pre ++ s) = Some s.
Proof.
  induction pre as [|c r IH]; [destruct s; reflexivity|].
  change (String c r ++ s) with (String c (r ++ s)). cbn.
  rewrite Ascii.eqb_refl. exact IH.
Qed.

Lemma take_app h t : JsString.take (String.length h) (h ++ t) = Some (h, t).
Proof.
  induction h as [|c r IH]; [reflexivity|].
  change (String c r ++ t) with (String c (r ++ t)). cbn. rewrite IH. reflexivity.
Qed.

Lemma take_length n s h t : JsString.take n s = Some (h, t) -> String.length h = n.
Proof.
  revert s h t. induction n as [|n IH]; intros s h t; cbn.
  - intros [= <- _]. reflexivity.
  - destruct s as [|c r]; [discriminate|].
    destruct (JsString.take n r) as [[h' t']|] eqn:Htake; [|discriminate].
    intros [= <- _]. cbn. f_equal. exact (IH _ _ _ Htake).
Qed.

End MoreStringFacts.

(** X1.  [getQueueName] returns what follows the last colon of the ARN, and
    ['unknown'] when nothing follows it. *)
Theorem getQueueName_last_segment (p q : string) :
  free ":" q = true ->
  getQueueName (Some (p ++ ":" ++ q)) = (if JsString.truthy q then q else "unknown").
Proof.
  intros Hfree. unfold getQueueName, JsString.pop.
  change (p ++ ":" ++ q) with (p ++ String ":" q).
  rewrite last_split_app, (split_free ":" q Hfree). cbn.
  destruct (JsString.truthy q); reflexivity.
Qed.

Lemma getQueueName_last_segment_witness :
  getQueueName (Some ("arn:aws:sqs:us-east-1:000000000000" ++ ":" ++ "asyncdemo-q1")) =
    (if JsString.truthy "asyncdemo-q1" then "asyncdemo-q1" else "unknown").
Proof.
  apply (getQueueName_last_segment "arn:aws:sqs:us-east-1:000000000000" "asyncdemo-q1").
  reflexivity.
Defined.

Section XrayFacts.
Import Publisher.

Lemma hexRun_spec n s h t :
  hexRun n s = Some (h, t) ->
  String.length h = n /\ JsString.forallb isLowerHex h = true.
Proof.
  unfold hexRun. destruct (JsString.take n s) as [[h' t']|] eqn:Htake; [|discriminate].
  destruct (JsString.forallb isLowerHex h') eqn:Hhex; [|discriminate].
  intros [= <- <-]. split; [exact (take_length _ _ _ _ Htake) | exact Hhex].
Qed.

Lemma hexRun_app n h t :
  String.length h = n -> JsString.forallb isLowerHex h = true ->
  hexRun n (h ++ t) = Some (h, t).
Proof. intros <- Hhex. unfold hexRun. rewrite take_app, Hhex. reflexivity. Qed.

(** What a match of the pattern captures. *)
Lemma xrayMatchAt_groups s ts suffix parent sampled :
  xrayMatchAt s = Some (ts, suffix, parent, sampled) ->
  (String.length ts = 8 /\ JsString.forallb isLowerHex ts = true) /\
  (String.length suffix = 24 /\ JsString.forallb isLowerHex suffix = true) /\
  (String.length parent = 16 /\ JsString.forallb isLowerHex parent = true) /\
  (sampled = "0" \/ sampled = "1").
Proof.
  unfold xrayMatchAt, mbind, option_bind.
  destruct (JsString.startsWith "Root=1-" s) as [r1|]; cbv beta iota; [|discriminate].
  destruct (hexRun 8 r1) as [[ts' r2]|] eqn:H1; cbv beta iota; [|discriminate].
  destruct (JsString.startsWith "-" r2) as [r3|]; cbv beta iota; [|discriminate].
  destruct (hexRun 24 r3) as [[suffix' r4]|] eqn:H2; cbv beta iota; [|discriminate].
  destruct (JsString.startsWith ";Parent=" r4) as [r5|]; cbv beta iota; [|discriminate].
  destruct (hexRun 16 r5) as [[parent' r6]|] eqn:H3; cbv beta iota; [|discriminate].
  destruct (JsString.startsWith ";Sampled=" r6) as [r7|]; cbv beta iota; [|discriminate].
  destruct (JsString.take 1 r7) as [[sampled' r8]|]; cbv beta iota; [|discriminate].
  destruct (String.eqb_spec sampled' "0") as [H0|_]; cbv beta iota; cbn [orb].
  - intros [= <- <- <- <-].
    split; [exact (hexRun_spec _ _ _ _ H1)|]. split; [exact (hexRun_spec _ _ _ _ H2)|].
    split; [exact (hexRun_spec _ _ _ _ H3)|]. left. exact H0.
  - destruct (String.eqb_spec sampled' "1") as [H1'|_]; [|discriminate].
    intros [= <- <- <- <-].
    split; [exact (hexRun_spec _ _ _ _ H1)|]. split; [exact (hexRun_spec _ _ _ _ H2)|].
    split; [exact (hexRun_spec _ _ _ _ H3)|]. right. exact H1'.
Qed.

Lemma xrayMatch_groups s ts suffix parent sampled :
  xrayMatch s = Some (ts, suffix, parent, sampled) ->
  (String.length ts = 8 /\ JsString.forallb isLowerHex ts = true) /\
  (String.length suffix = 24 /\ JsString.forallb isLowerHex suffix = true) /\
  (String.length parent = 16 /\ JsString.forallb isLowerHex parent = true) /\
  (sampled = "0" \/ sampled = "1").
Proof.
  induction s as [|c r IH]; cbn [xrayMatch].
  - destruct (xrayMatchAt "") as [m|] eqn:Hat; [|discriminate].
    intros [= ->]. exact (xrayMatchAt_groups _ _ _ _ _ Hat).
  - destruct (xrayMatchAt (String c r)) as [m|] eqn:Hat; [|exact IH].
    intros [= ->]. exact (xrayMatchAt_groups _ _ _ _ _ Hat).
Qed.

Lemma xrayMatch_at s m : xrayMatchAt s = Some m -> xrayMatch s = Some m.
Proof. intros Hat. destruct s; cbn [xrayMatch]; rewrite Hat; reflexivity. Qed.

Lemma traceparentOfXray_wf x text :
  traceparentOfXray x = Some text -> wellFormedTraceparent text = true.
Proof.
  unfold traceparentOfXray.
  destruct (xrayMatch x) as [[[[ts suffix] parent] sampled]|] eqn:Hm; [|discriminate].
  destruct (xrayMatch_groups _ _ _ _ _ Hm)
    as ((Hl1 & Hh1) & (Hl2 & Hh2) & (Hl3 & Hh3) & Hs).
  intros [= <-]. apply wellFormed_formatted; auto.
  - rewrite length_app, Hl1, Hl2. reflexivity.
  - rewrite forallb_app, Hh1, Hh2. reflexivity.
  - destruct Hs as [-> | ->]; [left | right]; reflexivity.
Qed.

(** X2.  Whatever the X-Ray environment variable holds, a traceparent
    derived from it is a well-formed trace identifier. *)
Theorem traceparentOfXray_wellFormed (xrayTraceId text : string) :
  traceparentOfXray xrayTraceId = Some text -> wellFormedTraceparent text = true.
Proof. exact (traceparentOfXray_wf xrayTraceId text). Qed.

Lemma traceparentOfXray_wellFormed_witness :
  wellFormedTraceparent "00-5e1b41515ac6c58f40c8b5e065b2dcf0-53995c3f42cd8ad8-01" = true.
Proof.
  apply (traceparentOfXray_wellFormed sampleXray). vm_compute. reflexivity.
Defined.

(** X3.  An X-Ray header [Root=1-t-r;Parent=p;Sampled=b], whatever follows
    it, becomes the traceparent [00-tr-p-0b]: the trace id is the timestamp
    followed by the 24 remaining digits of the root, the span id is the
    parent. *)
Theorem traceparentOfXray_canonical (t r p b rest : string) :
  String.length t = 8%nat -> JsString.forallb isLowerHex t = true ->
  String.length r = 24%nat -> JsString.forallb isLowerHex r = true ->
  String.length p = 16%nat -> JsString.forallb isLowerHex p = true ->
  b = "0" \/ b = "1" ->
  traceparentOfXray
    ("Root=1-" ++ t ++ "-" ++ r ++ ";Parent=" ++ p ++ ";Sampled=" ++ b ++ rest) =
  Some ("00-" ++ (t ++ r) ++ "-" ++ p ++ "-" ++ "0" ++ b).
Proof.
  intros Hlt Ht Hlr Hr Hlp Hp Hb. unfold traceparentOfXray.
  rewrite (xrayMatch_at _ (t, r, p, b)).
  - destruct Hb as [-> | ->]; reflexivity.
  - unfold xrayMatchAt, mbind, option_bind. rewrite startsWith_app.
    rewrite (hexRun_app 8 t _ Hlt Ht).
    rewrite (startsWith_app "-").
    rewrite (hexRun_app 24 r _ Hlr Hr).
    rewrite (startsWith_app ";Parent=").
    rewrite (hexRun_app 16 p _ Hlp Hp).
    rewrite (startsWith_app ";Sampled=").
    destruct Hb as [-> | ->]; reflexivity.
Qed.

Lemma traceparentOfXray_canonical_witness :
  traceparentOfXray
    ("Root=1-" ++ "5e1b4151" ++ "-" ++ "5ac6c58f40c8b5e065b2dcf0" ++ ";Parent=" ++
     "53995c3f42cd8ad8" ++ ";Sampled=" ++ "1" ++ ";Lineage=a87bd80c:1") =
  Some ("00-" ++ ("5e1b4151" ++ "5ac6c58f40c8b5e065b2dcf0") ++ "-" ++
        "53995c3f42cd8ad8" ++ "-" ++ "0" ++ "1").
Proof.
  apply (traceparentOfXray_canonical "5e1b4151" "5ac6c58f40c8b5e065b2dcf0"
           "53995c3f42cd8ad8" "1" ";Lineage=a87bd80c:1");
    first [reflexivity | right; reflexivity].
Defined.

End XrayFacts.

(** ** Identifiers read from the environment and from carriers *)

Section MoreCodecFacts.
Import ObservabilityManager Publisher.

Lemma validIds_fields sc :
  validIds sc = true ->
  String.length (sc_traceId sc) = 32%nat /\
  JsString.forallb isLowerHex (sc_traceId sc) = true /\
  String.length (sc_spanId sc) = 16%nat /\
  JsString.forallb isLowerHex (sc_spanId sc) = true.
Proof.
  unfold validIds. intros Hvalid.
  repeat (apply andb_prop in Hvalid as [Hvalid ?]).
  apply Nat.eqb_eq in Hvalid.
  repeat split; try assumption. apply Nat.eqb_eq. assumption.
Qed.

Lemma traceparentOfSpanContext_wf sc text :
  validIds sc = true ->
  traceparentOfSpanContext sc = Some text -> wellFormedTraceparent text = true.
Proof.
  intros Hvalid. destruct (validIds_fields sc Hvalid) as (Hlt & Ht & Hls & Hs).
  unfold traceparentOfSpanContext. destruct (_ && _); [|discriminate].
  intros [= <-]. unfold formatTraceparent.
  apply wellFormed_formatted; auto using flagsText_cases.
Qed.

Lemma getTraceparentFromActiveSpan_wf env text :
  validEnv env = true ->
  getTraceparentFromActiveSpan env = Some text ->
  wellFormedTraceparent text = true.
Proof.
  unfold validEnv, getTraceparentFromActiveSpan, fromActiveSpan, fromXrayEnv,
    fromActiveContext.
  intros Hvalid. apply andb_prop in Hvalid as [Hspan Hctx].
  assert (Hlater :
    match match env_xrayTraceId env with
          | Some x => if JsString.truthy x then traceparentOfXray x else None
          | None => None
          end with
    | Some t => Some t
    | None => match env_activeSpanContext env with
              | Some traceState => traceparentOfSpanContext traceState
              | None => None
              end
    end = Some text -> wellFormedTraceparent text = true).
  { destruct (env_xrayTraceId env) as [x|].
    - destruct (JsString.truthy x).
      + destruct (traceparentOfXray x) as [t|] eqn:Hx.
        * intros [= <-]. exact (traceparentOfXray_wf x t Hx).
        * destruct (env_activeSpanContext env) as [sc|]; [|discriminate].
          exact (traceparentOfSpanContext_wf sc text Hctx).
      + destruct (env_activeSpanContext env) as [sc|]; [|discriminate].
        exact (traceparentOfSpanContext_wf sc text Hctx).
    - destruct (env_activeSpanContext env) as [sc|]; [|discriminate].
      exact (traceparentOfSpanContext_wf sc text Hctx). }
  destruct (env_activeSpan env) as [[sc|]|]; try exact Hlater.
  destruct (traceparentOfSpanContext sc) as [t|] eqn:Hsc; [|exact Hlater].
  intros [= <-]. exact (traceparentOfSpanContext_wf sc t Hspan Hsc).
Qed.

(** X4.  When the span contexts of the environment carry ids of 32 and 16
    lowercase hex digits, whatever [getTraceparentFromActiveSpan] returns,
    from the span, from the X-Ray variable or from the active context, is a
    well-formed trace identifier. *)
Theorem getTraceparentFromActiveSpan_wellFormed (env : PublisherEnv) (text : string) :
  validEnv env = true ->
  getTraceparentFromActiveSpan env = Some text ->
  wellFormedTraceparent text = true.
Proof. exact (getTraceparentFromActiveSpan_wf env text). Qed.

Lemma getTraceparentFromActiveSpan_wellFormed_witness :
  wellFormedTraceparent originalId = true.
Proof.
  apply (getTraceparentFromActiveSpan_wellFormed sampleEnv originalId);
    vm_compute; reflexivity.
Defined.

(** X5.  What [getTraceContext] builds for a span whose ids contain no
    dash, the recoverer reads back unchanged from a carrier that holds the
    built traceparent: same [traceId], same [spanId], same text. *)
Theorem getTraceContext_recovered (service : string) (sc : SpanContext) :
  free dash (sc_traceId sc) = true ->
  free dash (sc_spanId sc) = true ->
  exists tc,
    getTraceContext {| serviceName := service; currentSpan := Some sc |} = Some tc /\
    extractIncomingTraceContext (carrierRecord (traceparent tc)) = Some tc.
Proof.
  intros Ht Hs. eexists. split; [reflexivity|]. cbn [traceparent].
  change (extractIncomingTraceContext (carrierRecord ?x)) with (Codec.parse x).
  rewrite parse_text by reflexivity. unfold contextOfText, formatTraceparent.
  change ("00-" ++ ?x) with ("00" ++ "-" ++ x).
  rewrite (split_four "00" _ _ _ eq_refl Ht Hs (flagsText_free _)). reflexivity.
Qed.

Lemma getTraceContext_recovered_witness :
  exists tc,
    getTraceContext {| serviceName := "order-publisher";
                       currentSpan := Some sampleSpanContext |} = Some tc /\
    extractIncomingTraceContext (carrierRecord (traceparent tc)) = Some tc.
Proof.
  apply (getTraceContext_recovered "order-publisher" sampleSpanContext); reflexivity.
Defined.

Lemma ToInt32_parity z : (ToInt32 z mod 2 = z mod 2)%Z.
Proof.
  unfold ToInt32. rewrite (Z.mod_eq (z + 2 ^ 31) (2 ^ 32)) by discriminate.
  replace (z + 2 ^ 31 - 2 ^ 32 * ((z + 2 ^ 31) / 2 ^ 32) - 2 ^ 31)%Z
    with (z + (- 2 ^ 31 * ((z + 2 ^ 31) / 2 ^ 32)) * 2)%Z by lia.
  apply Z_mod_plus_full.
Qed.

(** X6.  Of the span's [traceFlags] only the lowest bit reaches the
    serialized flags, also for values outside the 32-bit range: the text is
    [01] for an odd value and [00] for an even one. *)
Theorem flagsText_parity (traceFlags : Z) :
  flagsText traceFlags = if Z.odd traceFlags then "01" else "00".
Proof.
  unfold flagsText. change 1%Z with (Z.ones 1) at 1.
  rewrite Z.land_ones by lia. change (2 ^ 1)%Z with 2%Z.
  rewrite ToInt32_parity, Zmod_odd. destruct (Z.odd traceFlags); reflexivity.
Qed.

(** X7.  When the carrier the recoverer selects is a well-formed trace
    identifier, the recovered [traceId] and [spanId] are its fields of 32 and
    of 16 lowercase hex digits. *)
Theorem extract_wellFormed_ids (record : InboundRecord) (text : string) :
  firstNonEmpty (carrierSlots record) = Some text ->
  wellFormedTraceparent text = true ->
  exists t s,
    extractIncomingTraceContext record =
      Some {| traceId := Some t; spanId := Some s; traceparent := text |} /\
    String.length t = 32%nat /\ JsString.forallb isLowerHex t = true /\
    String.length s = 16%nat /\ JsString.forallb isLowerHex s = true.
Proof.
  intros Hslot Hwf.
  destruct (wellFormed_fields text Hwf)
    as (v & t & s & f & Hsplit & _ & _ & Hlt & Hls & _ & _ & Ht & Hs & _).
  exists t, s. rewrite extract_firstNonEmpty, Hslot. cbn.
  unfold contextOfText. rewrite Hsplit. repeat split; assumption.
Qed.

Lemma extract_wellFormed_ids_witness :
  exists t s,
    extractIncomingTraceContext (carrierRecord originalId) =
      Some {| traceId := Some t; spanId := Some s; traceparent := originalId |} /\
    String.length t = 32%nat /\ JsString.forallb isLowerHex t = true /\
    String.length s = 16%nat /\ JsString.forallb isLowerHex s = true.
Proof.
  apply (extract_wellFormed_ids (carrierRecord originalId) originalId);
    vm_compute; reflexivity.
Defined.

End MoreCodecFacts.

(** ** The publisher handler *)

Section MoreHandlerFacts.
Context {engine : Engine}.
Import Publisher.

Lemma member_getProp event k v : Js.getProp event k = inr v -> member event k = v.
Proof. unfold member. intros ->. reflexivity. Qed.

Lemma member_truthy_getProp event k :
  Js.ToBoolean (member event k) = true ->
  forall k', Js.getProp event k' = inr (member event k').
Proof.
  intros Htruthy k'. destruct event; try reflexivity; discriminate Htruthy.
Qed.

Lemma buildAttributes_dom event transactionType orderId traceparent attrs :
  buildAttributes event transactionType orderId traceparent = ret attrs ->
  dom attrs =
    {[ "transactionType"; "orderId"; "traceparent"; "w3c_traceparent_orig" ]} ∪
    optionalKey event "amount" ∪ optionalKey event "customerId" ∪
    optionalKey event "reason".
Proof.
  unfold buildAttributes, optionalKey, bind, ret.
  destruct (Js.getProp event "amount") as [e|amount] eqn:Hamount; [discriminate|].
  rewrite (member_getProp _ _ _ Hamount).
  destruct (Js.getProp event "customerId") as [e|customerId] eqn:Hcust.
  { destruct (Js.ToBoolean amount); [destruct (callToString amount)|]; discriminate. }
  rewrite (member_getProp _ _ _ Hcust).
  destruct (Js.getProp event "reason") as [e|reason] eqn:Hreason.
  { destruct (Js.ToBoolean amount); [destruct (callToString amount)|]; discriminate. }
  rewrite (member_getProp _ _ _ Hreason).
  destruct (Js.ToBoolean amount).
  - destruct (callToString amount) as [e|text]; [discriminate|].
    intros [= <-]. rewrite !dom_insert_L.
    destruct (Js.ToBoolean customerId), (Js.ToBoolean reason);
      rewrite ?dom_insert_L, dom_empty_L; set_solver.
  - intros [= <-]. rewrite !dom_insert_L.
    destruct (Js.ToBoolean customerId), (Js.ToBoolean reason);
      rewrite ?dom_insert_L, dom_empty_L; set_solver.
Qed.

Lemma optionalKey_undefined k : optionalKey JUndefined k = optionalKey (JObject []) k.
Proof. reflexivity. Qed.

(** X8.  Whenever the publisher handler reaches [sns.send], the attribute
    map of the message has exactly these names: [transactionType],
    [orderId] and the two carriers always, and [amount], [customerId] and
    [reason] each exactly when the event's member of that name is truthy. *)
Theorem handler_attribute_names (env : PublisherEnv) (event : JsVal) (g : RNG)
    (cmd : PublishCommandInput) :
  fst (handler env event g) = ret cmd ->
  dom (MessageAttributes cmd) =
    {[ "transactionType"; "orderId"; "traceparent"; "w3c_traceparent_orig" ]} ∪
    optionalKey event "amount" ∪ optionalKey event "customerId" ∪
    optionalKey event "reason".
Proof.
  unfold handler.
  set (event' := match event with JUndefined => JObject [] | _ => event end).
  assert (Hkeys : forall k, optionalKey event k = optionalKey event' k)
    by (intros k; destruct event; reflexivity).
  rewrite !Hkeys.
  destruct (Js.getProp event' "transactionType") as [e|tt]; [discriminate|].
  destruct (if Js.nullish _ then _ else _) as [orderId g1].
  destruct (contextSource env _ g1) as [chosen g2]. cbn [fst].
  unfold bind, ret.
  destruct (callSplit chosen) as [e|parts]; [discriminate|].
  destruct (buildAttributes _ _ _ chosen) as [e|attrs] eqn:Hattrs; [discriminate|].
  intros [= <-]. cbn [MessageAttributes].
  exact (buildAttributes_dom _ _ _ _ _ Hattrs).
Qed.

(** A truthy override without [split] stops the handler in its log line. *)
Lemma handler_throws_at_split env event g :
  Js.ToBoolean (member event "traceparent") = true ->
  (forall s, member event "traceparent" <> JString s) ->
  fst (handler env event g) = throw (raise (NotCallable "traceparent.split")).
Proof.
  intros Htruthy Hnot. unfold handler.
  assert (Hevent : match event with JUndefined => JObject [] | _ => event end = event)
    by (destruct event; try reflexivity; discriminate Htruthy).
  rewrite Hevent.
  rewrite (member_truthy_getProp event "traceparent" Htruthy "transactionType").
  destruct (if Js.nullish _ then _ else _) as [orderId g1].
  unfold contextSource. rewrite Htruthy. cbn [fst].
  destruct (member event "traceparent") as [| | | |s| |] eqn:Hm;
    try reflexivity.
  exfalso. exact (Hnot s eq_refl).
Qed.

(** X9.  An override [event.traceparent] that is truthy but not a string
    (a number, [true], an array, an object) is chosen by the Context Source
    and makes the handler throw [TypeError] at [traceparent.split] before
    anything is published. *)
Theorem handler_rejects_non_string_override (env : PublisherEnv) (event : JsVal)
    (g : RNG) :
  Js.ToBoolean (member event "traceparent") = true ->
  (forall s, member event "traceparent" <> JString s) ->
  fst (handler env event g) = throw (raise (NotCallable "traceparent.split")).
Proof. exact (handler_throws_at_split env event g). Qed.

End MoreHandlerFacts.

Lemma handler_attribute_names_witness :
  exists cmd,
    fst (Publisher.handler (engine := sampleEngine) sampleEnv orderEvent countingRNG)
      = ret cmd /\
    dom (MessageAttributes cmd) =
      {[ "transactionType"; "orderId"; "traceparent"; "w3c_traceparent_orig" ]} ∪
      optionalKey (engine := sampleEngine) orderEvent "amount" ∪
      optionalKey (engine := sampleEngine) orderEvent "customerId" ∪
      optionalKey (engine := sampleEngine) orderEvent "reason".
Proof.
  eexists. split; [vm_compute; reflexivity|].
  apply (handler_attribute_names (engine := sampleEngine) sampleEnv orderEvent countingRNG).
  vm_compute. reflexivity.
Defined.

Lemma handler_rejects_non_string_override_witness :
  fst (Publisher.handler (engine := sampleEngine) sampleEnv numberOverrideEvent
         countingRNG)
    = throw (raise (engine := sampleEngine) (NotCallable "traceparent.split")).
Proof.
  apply (handler_rejects_non_string_override (engine := sampleEngine));
    [reflexivity | discriminate].
Defined.

(** ** From the publisher to the consumer *)

Section EndToEnd.
Context {engine : Engine}.
Import Publisher ObservabilityManager.

Lemma handler_sends_override env event g cmd :
  Js.ToBoolean (member event "traceparent") = true ->
  fst (handler env event g) = ret cmd ->
  MessageAttributes cmd !! "traceparent" =
    Some (stringAttribute (member event "traceparent")) /\
  MessageAttributes cmd !! "w3c_traceparent_orig" =
    Some (stringAttribute (member event "traceparent")).
Proof.
  intros Htruthy. unfold handler.
  assert (Hevent : match event with JUndefined => JObject [] | _ => event end = event)
    by (destruct event; try reflexivity; discriminate Htruthy).
  rewrite Hevent.
  rewrite (member_truthy_getProp event "traceparent" Htruthy "transactionType").
  destruct (if Js.nullish _ then _ else _) as [orderId g1].
  unfold contextSource. rewrite Htruthy. cbn [fst]. unfold bind, ret.
  destruct (callSplit _) as [e|parts]; [discriminate|].
  destruct (buildAttributes _ _ _ _) as [e|attrs] eqn:Hattrs; [discriminate|].
  intros [= <-]. cbn [MessageAttributes].
  exact (buildAttributes_carriers _ _ _ _ _ Hattrs).
Qed.

(** X10.  End to end with an explicit override: when the publisher handler
    is invoked with a non-empty string in [event.traceparent] and sends its
    message, and the record reaches the consumer with the primary carrier
    as sent, or with the primary carrier dropped and the backup carrier as
    sent, then [extractIncomingTraceContext] recovers exactly that string. *)
Theorem override_recovered_by_consumer (env : PublisherEnv) (event : JsVal) (g : RNG)
    (cmd : PublishCommandInput) (text : string) (record : InboundRecord)
    (attrs : gmap string MessageAttribute) :
  member event "traceparent" = JString text ->
  JsString.truthy text = true ->
  fst (handler env event g) = ret cmd ->
  messageAttributes record = Some attrs ->
  attrs !! "traceparent" = MessageAttributes cmd !! "traceparent" ≫= delivered \/
  (attrs !! "traceparent" = None /\
   attrs !! "w3c_traceparent_orig" =
     MessageAttributes cmd !! "w3c_traceparent_orig" ≫= delivered) ->
  extractIncomingTraceContext record = Some (contextOfText text).
Proof.
  intros Hmember Htruthy Hsent Hattrs Hdelivery.
  assert (Hbool : Js.ToBoolean (member event "traceparent") = true)
    by (rewrite Hmember; exact Htruthy).
  destruct (handler_sends_override env event g cmd Hbool Hsent) as [Hp Hb].
  rewrite Hmember in Hp, Hb.
  destruct Hdelivery as [Hprimary | [Hmissing Hbackup]].
  - rewrite Hp in Hprimary. cbn in Hprimary.
    apply (primary_shadows_backup record attrs text Hattrs); [|exact Htruthy].
    unfold attrString. rewrite Hprimary. reflexivity.
  - rewrite Hb in Hbackup. cbn in Hbackup.
    apply (backup_when_primary_missing record attrs text Hattrs); [| |exact Htruthy].
    + unfold attrString. rewrite Hmissing. reflexivity.
    + unfold attrString. rewrite Hbackup. reflexivity.
Qed.

End EndToEnd.

Lemma override_recovered_by_consumer_witness :
  ObservabilityManager.extractIncomingTraceContext (carrierRecord originalId) =
    Some (ObservabilityManager.contextOfText originalId).
Proof.
  apply (override_recovered_by_consumer (engine := sampleEngine) sampleEnv orderEvent
           countingRNG sentCommand originalId (carrierRecord originalId)
           {[ "traceparent" := stringAttr originalId ]}).
  - vm_compute. reflexivity.
  - vm_compute. reflexivity.
  - vm_compute. reflexivity.
  - vm_compute. reflexivity.
  - left. vm_compute. reflexivity.
Defined.

(** ** What [SNSPublisher.publish] sends *)

Section MorePublishFacts.
Context {engine : Engine}.
Import SNSPublisher.

Lemma generateFallbackTrace_wf g :
  wellFormedTraceparent (fst (generateFallbackTrace g)) = true /\
  calls (snd (generateFallbackTrace g)) = (calls g + 48)%nat.
Proof.
  unfold generateFallbackTrace.
  destruct (generateTraceparent_shape g) as (t & s & Htext & Hlt & Ht & Hls & Hs & Hc).
  rewrite Htext. split; [|exact Hc].
  apply (wellFormed_formatted t s "01"); auto.
Qed.

(** X11.  For a message other than [undefined] and options that do not
    replace the attribute map, [publish] sends a message whose two carriers
    each hold a well-formed trace identifier. *)
Theorem publish_carriers_wellFormed (serviceName topicArn : string)
    (message : JsVal) (options : Options) (g : RNG) :
  message <> JUndefined ->
  opt_publishOptions options ≫= po_MessageAttributes = None ->
  exists cmd primary backup,
    fst (publish serviceName topicArn message options g) = ret cmd /\
    MessageAttributes cmd !! "traceparent" = Some (stringAttribute (JString primary)) /\
    MessageAttributes cmd !! "w3c_traceparent_orig" =
      Some (stringAttribute (JString backup)) /\
    wellFormedTraceparent primary = true /\
    wellFormedTraceparent backup = true.
Proof.
  intros Hmsg Hextra. rewrite publish_sends by exact Hmsg.
  pose proof (generateFallbackTrace_wf g) as [Hwf1 Hc1].
  pose proof (generateFallbackTrace_wf (snd (generateFallbackTrace g))) as [Hwf2 Hc2].
  destruct (generateFallbackTrace g) as [primary g1]. cbn [fst snd] in *.
  destruct (generateFallbackTrace g1) as [backup g2]. cbn [fst snd] in *.
  exists (commandInput topicArn (JSON_stringify message)
            (<["w3c_traceparent_orig" := stringAttribute (JString backup)]>
               (<["traceparent" := stringAttribute (JString primary)]>
                  (default ∅ (opt_messageAttributes options))))
            (opt_publishOptions options)), primary, backup.
  split; [reflexivity|].
  unfold commandInput. cbn [MessageAttributes]. rewrite Hextra. cbn [from_option id].
  split; [rewrite lookup_insert_ne by discriminate; apply lookup_insert_eq|].
  split; [apply lookup_insert_eq|].
  split; [exact Hwf1|]. exact Hwf2.
Qed.

(** X22.  For every call of [SNSPublisher.publish] with a message other
    than [undefined] and with no [MessageAttributes] member among
    [options.publishOptions], a message is sent whose attribute map
    contains the [traceparent] and [w3c_traceparent_orig] entries with the
    library's values, whatever the caller supplied under these names,
    while every other caller-supplied attribute is in the map unchanged
    (and nothing else is). *)
Theorem publish_frame (serviceName topicArn : string)
    (message : JsVal) (options : Options) (g : RNG) :
  message <> JUndefined ->
  opt_publishOptions options ≫= po_MessageAttributes = None ->
  exists cmd,
    fst (publish serviceName topicArn message options g) = ret cmd /\
    MessageAttributes cmd !! "traceparent" =
      Some (stringAttribute (JString (fst (generateFallbackTrace g)))) /\
    MessageAttributes cmd !! "w3c_traceparent_orig" =
      Some (stringAttribute
              (JString (fst (generateFallbackTrace (snd (generateFallbackTrace g)))))) /\
    forall k : string,
      k <> "traceparent" -> k <> "w3c_traceparent_orig" ->
      MessageAttributes cmd !! k = default ∅ (opt_messageAttributes options) !! k.
Proof.
  intros Hmsg Hextra. rewrite publish_sends by exact Hmsg. cbn [fst].
  eexists. split; [reflexivity|].
  unfold commandInput. cbn [MessageAttributes]. rewrite Hextra. cbn [default].
  split; [|split].
  - rewrite lookup_insert_ne by discriminate. apply lookup_insert_eq.
  - apply lookup_insert_eq.
  - intros k Hp Hb. rewrite !lookup_insert_ne by congruence. reflexivity.
Qed.

End MorePublishFacts.

Lemma publish_frame_witness :
  exists cmd,
    fst (SNSPublisher.publish (engine := sampleEngine) "order-publisher" sampleTopic
           sampleMessage callerOptions countingRNG) = ret cmd /\
    MessageAttributes cmd !! "traceparent" =
      Some (stringAttribute
              (JString (fst (SNSPublisher.generateFallbackTrace countingRNG)))) /\
    MessageAttributes cmd !! "w3c_traceparent_orig" =
      Some (stringAttribute
              (JString (fst (SNSPublisher.generateFallbackTrace
                               (snd (SNSPublisher.generateFallbackTrace countingRNG)))))) /\
    forall k : string,
      k <> "traceparent" -> k <> "w3c_traceparent_orig" ->
      MessageAttributes cmd !! k = default ∅ (opt_messageAttributes callerOptions) !! k.
Proof.
  apply (publish_frame (engine := sampleEngine)); [discriminate | reflexivity].
Defined.

Lemma publish_carriers_wellFormed_witness :
  exists cmd primary backup,
    fst (SNSPublisher.publish (engine := sampleEngine) "order-publisher" sampleTopic
           sampleMessage callerOptions countingRNG) = ret cmd /\
    MessageAttributes cmd !! "traceparent" = Some (stringAttribute (JString primary)) /\
    MessageAttributes cmd !! "w3c_traceparent_orig" =
      Some (stringAttribute (JString backup)) /\
    wellFormedTraceparent primary = true /\
    wellFormedTraceparent backup = true.
Proof.
  apply (publish_carriers_wellFormed (engine := sampleEngine));
    [discriminate | reflexivity].
Defined.

(** ** The batch loop once [init] has succeeded *)

Section MoreBatchFacts.
Context {engine : Engine}.
Variable World : Type.
Implicit Types (businessLogic : BusinessLogic World) (w : World).
Local Open Scope list_scope.

Lemma filter_counts (entries : list ResultEntry) :
  (length (List.filter isSuccess entries) + length (List.filter isError entries))%nat
  = length entries.
Proof.
  induction entries as [|e es IH]; cbn; [reflexivity|].
  rewrite isError_isSuccess. destruct (isSuccess e); cbn; lia.
Qed.

Lemma entriesOf_length businessLogic records w :
  length (fst (entriesOf World businessLogic records w)) = length records.
Proof.
  rewrite <- (length_map re_messageId), entriesOf_messageIds, length_map. reflexivity.
Qed.

(** X12.  Once [init] has succeeded ([context.active()] returns a
    [Context]), every batch gets an outcome: [results] holds one entry per
    record, in delivery order and
    under the record's [messageId]; [batchItemFailures] is exactly the
    identities of the entries with status error, in that order, and is empty
    exactly when every entry is a success; the counts handed to
    [obs.complete] add up to the number of records, and [errorCount] is the
    number of reported failures.  A missing [Records] counts as an empty
    batch. *)
Theorem processBatch_outcome_invariant (serviceName : string) (event : SqsEvent)
    (context : HandlerContext) (span : option SpanContext) businessLogic w :
  active context = Some (ReturnsContext span) ->
  let records := default [] (Records event) in
  let entries := fst (entriesOf World businessLogic records w) in
  exists response summary,
    processBatch World serviceName event context businessLogic w =
      (ret (response, summary), snd (entriesOf World businessLogic records w)) /\
    map re_messageId entries = map messageId records /\
    batchItemFailures response =
      map (fun r => {| itemIdentifier := re_messageId r |}) (List.filter isError entries) /\
    (batchItemFailures response = [] <-> forallb isSuccess entries = true) /\
    processedCount summary = length records /\
    (successCount summary + errorCount summary)%nat = processedCount summary /\
    errorCount summary = length (batchItemFailures response).
Proof.
  intros Hactive records entries.
  destruct (processBatch_after_init World serviceName records context span businessLogic
              w Hactive) as (Hrun & Hids & Hnil).
  exists {| batchItemFailures := failuresOf entries |}, (summarize entries).
  split.
  { change (processBatch World serviceName event context businessLogic w)
      with (processBatch World serviceName {| Records := Some records |} context
              businessLogic w).
    exact Hrun. }
  split; [exact Hids|]. split; [reflexivity|]. split; [exact Hnil|].
  cbn [processedCount successCount errorCount summarize batchItemFailures].
  split; [apply entriesOf_length|]. split; [apply filter_counts|].
  unfold failuresOf. rewrite length_map. reflexivity.
Qed.

Lemma entryOf_malformed businessLogic record w :
  malformedPayload record = true ->
  exists reason,
    entryOf World businessLogic record w =
      ({| re_messageId := messageId record; re_status := status_error reason |}, w).
Proof.
  intros Hbad. destruct (parseMessage_malformed record Hbad) as [text Hthrow].
  eexists. unfold entryOf, tryRecord. rewrite Hthrow. reflexivity.
Qed.

Lemma entriesOf_malformed businessLogic records w :
  forallb malformedPayload records = true ->
  snd (entriesOf World businessLogic records w) = w /\
  map re_messageId (fst (entriesOf World businessLogic records w)) = map messageId records /\
  forallb isError (fst (entriesOf World businessLogic records w)) = true.
Proof.
  induction records as [|record rest IH]; cbn; [auto|].
  intros Hall. apply andb_prop in Hall as [Hbad Hrest].
  destruct (entryOf_malformed businessLogic record w Hbad) as [reason ->].
  destruct (IH Hrest) as (Hw & Hids & Herr).
  destruct (entriesOf World businessLogic rest w) as [es w2]. cbn in *.
  rewrite Hids, Herr. auto.
Qed.

Lemma filter_all (entries : list ResultEntry) :
  forallb isError entries = true ->
  List.filter isError entries = entries /\ List.filter isSuccess entries = [].
Proof.
  induction entries as [|e es IH]; cbn; [auto|].
  intros Hall. apply andb_prop in Hall as [He Hes]. destruct (IH Hes) as [-> ->].
  rewrite He. rewrite isError_isSuccess in He. apply negb_true_iff in He.
  rewrite He. auto.
Qed.

(** X13.  A batch in which no record has a parseable payload never reaches
    the business callback: the world is left as it was, every record is
    reported in [batchItemFailures], in delivery order, and the counts are
    all errors. *)
Theorem malformed_batch_skips_callback (serviceName : string)
    (records : list InboundRecord) (context : HandlerContext)
    (span : option SpanContext) businessLogic w :
  active context = Some (ReturnsContext span) ->
  forallb malformedPayload records = true ->
  processBatch World serviceName {| Records := Some records |} context businessLogic w =
    (ret ({| batchItemFailures :=
               map (fun r => {| itemIdentifier := messageId r |}) records |},
          {| processedCount := length records;
             successCount := 0;
             errorCount := length records |}), w).
Proof.
  intros Hactive Hbad.
  destruct (processBatch_after_init World serviceName records context span businessLogic
              w Hactive) as (Hrun & _ & _).
  destruct (entriesOf_malformed businessLogic records w Hbad) as (Hw & Hids & Herr).
  rewrite Hrun, Hw. destruct (filter_all _ Herr) as [Hfe Hfs].
  unfold failuresOf, summarize. rewrite Hfe, Hfs.
  rewrite <- (length_map re_messageId), Hids, length_map.
  rewrite <- (map_map re_messageId (fun i => {| itemIdentifier := i |})), Hids, map_map.
  reflexivity.
Qed.

(** X23.  [processBatch] needs [init] to succeed: when the context object
    has no callable [active], or [active()] throws or returns anything but
    a [Context], the error of [init] is what [processBatch] is rejected
    with, for every batch; the callback is not called and no outcome is
    returned. *)
Theorem processBatch_rejected_by_init (serviceName : string) (event : SqsEvent)
    (context : HandlerContext) businessLogic w :
  (forall span, active context <> Some (ReturnsContext span)) ->
  exists err,
    getActiveSpan context = throw err /\
    processBatch World serviceName event context businessLogic w = (throw err, w).
Proof.
  intros Hnone. unfold processBatch, init, getActiveSpan.
  destruct (active context) as [[span| | |e]|]; cbn [bind throw];
    try (eexists; split; reflexivity).
  exfalso. exact (Hnone span eq_refl).
Qed.

(** X21.  Isolation of failure once [init] has succeeded: when every
    record parses and the callback throws for the record at position [k]
    and returns for every other record, the response names record [k]
    alone, there is one entry per record, and every entry but the one at
    [k] is a success. *)
Theorem batch_failure_isolated (serviceName : string) (records : list InboundRecord)
    (context : HandlerContext) (span : option SpanContext) businessLogic
    (k : nat) (rk : InboundRecord) w :
  active context = Some (ReturnsContext span) ->
  records !! k = Some rk ->
  (forall i r, records !! i = Some r ->
               callbackOutcome World businessLogic r (negb (i =? k)%nat)) ->
  let entries := fst (entriesOf World businessLogic records w) in
  exists summary,
    processBatch World serviceName {| Records := Some records |} context businessLogic w =
      (ret ({| batchItemFailures := [{| itemIdentifier := messageId rk |}] |}, summary),
       snd (entriesOf World businessLogic records w)) /\
    errorCount summary = 1%nat /\
    length entries = length records /\
    forall i e, entries !! i = Some e -> isSuccess e = negb (i =? k)%nat.
Proof.
  intros Hactive Hk Hall entries.
  destruct (processBatch_after_init World serviceName records context span businessLogic
              w Hactive) as (Hrun & _ & _).
  destruct (entriesOf_isolated World businessLogic records k rk w Hk Hall)
    as (Hf & Hl & Hs).
  fold entries in Hf, Hl, Hs. exists (summarize entries).
  rewrite Hrun. fold entries. rewrite Hf.
  split; [reflexivity|]. split; [|split; assumption].
  cbn [errorCount summarize].
  rewrite <- (length_map (fun r => {| itemIdentifier := re_messageId r |})).
  change (map (fun r => {| itemIdentifier := re_messageId r |})
              (List.filter isError entries)) with (failuresOf entries).
  rewrite Hf. reflexivity.
Qed.

End MoreBatchFacts.

Lemma processBatch_outcome_invariant_witness :
  let records := default [] (Records batchOfThree) in
  let entries := fst (entriesOf (engine := sampleEngine) nat countingLogic records 0%nat) in
  exists response summary,
    processBatch (engine := sampleEngine) nat "order-processor" batchOfThree
        activeContext countingLogic 0%nat =
      (ret (response, summary),
       snd (entriesOf (engine := sampleEngine) nat countingLogic records 0%nat)) /\
    map re_messageId entries = map messageId records /\
    batchItemFailures response =
      map (fun r => {| itemIdentifier := re_messageId r |}) (List.filter isError entries) /\
    (batchItemFailures response = [] <-> forallb isSuccess entries = true) /\
    processedCount summary = length records /\
    (successCount summary + errorCount summary)%nat = processedCount summary /\
    errorCount summary = length (batchItemFailures response).
Proof.
  apply (processBatch_outcome_invariant (engine := sampleEngine) nat "order-processor"
           batchOfThree activeContext None countingLogic 0%nat).
  reflexivity.
Defined.

Lemma malformed_batch_skips_callback_witness :
  processBatch (engine := sampleEngine) nat "order-processor"
      {| Records := Some [brokenRecord; brokenRecord] |} activeContext countingLogic 7%nat =
    (ret ({| batchItemFailures :=
               map (fun r => {| itemIdentifier := messageId r |})
                   [brokenRecord; brokenRecord] |},
          {| processedCount := length [brokenRecord; brokenRecord];
             successCount := 0;
             errorCount := length [brokenRecord; brokenRecord] |}), 7%nat).
Proof.
  apply (malformed_batch_skips_callback (engine := sampleEngine) nat "order-processor"
           [brokenRecord; brokenRecord] activeContext None countingLogic 7%nat).
  - reflexivity.
  - vm_compute. reflexivity.
Defined.

Lemma processBatch_rejected_by_init_witness :
  exists err,
    getActiveSpan (engine := sampleEngine) strayContext = throw err /\
    processBatch (engine := sampleEngine) nat "order-processor" batchOfThree
        strayContext countingLogic 0%nat = (throw err, 0%nat).
Proof.
  apply (processBatch_rejected_by_init (engine := sampleEngine) nat "order-processor"
           batchOfThree strayContext countingLogic 0%nat).
  discriminate.
Defined.

Lemma batch_failure_isolated_witness :
  let records := default [] (Records batchOfThree) in
  let entries := fst (entriesOf (engine := sampleEngine) nat countingLogic records 0%nat) in
  exists summary,
    processBatch (engine := sampleEngine) nat "order-processor"
        {| Records := Some records |} activeContext countingLogic 0%nat =
      (ret ({| batchItemFailures :=
                 [{| itemIdentifier := messageId (sqsRecord "m-1" "{}" ∅) |}] |}, summary),
       snd (entriesOf (engine := sampleEngine) nat countingLogic records 0%nat)) /\
    errorCount summary = 1%nat /\
    length entries = length records /\
    forall i e, entries !! i = Some e -> isSuccess e = negb (i =? 1)%nat.
Proof.
  apply (batch_failure_isolated (engine := sampleEngine) nat "order-processor"
           (default [] (Records batchOfThree)) activeContext None countingLogic 1%nat
           (sqsRecord "m-1" "{}" ∅) 0%nat).
  - reflexivity.
  - reflexivity.
  - intros i r Hr.
    destruct i as [|[|[|i]]]; cbn in Hr; try discriminate Hr; injection Hr as <-;
      (eexists; split; [vm_compute; reflexivity|];
       intros w; eexists _, _; split; [reflexivity|]; eexists; reflexivity).
Defined.

(** ** More on the Envelope Unwrapper *)

Section MoreUnwrapperFacts.
Context {engine : Engine}.

Lemma parse_string_success text v :
  JSON.parseText text = Some v -> JSON.parse (JString text) = ret v.
Proof. intros Hsome. unfold JSON.parse. cbn. rewrite Hsome. reflexivity. Qed.

(** X14.  A notification is unwrapped by one level: when the body is an
    object with [Type] ["Notification"] and a non-empty string [Message]
    that is JSON, the payload is that message as parsed, even if it is a
    notification again. *)
Theorem parseMessage_unwraps_one_level (record : InboundRecord)
    (props : list (string * JsVal)) (inner : string) (payload : JsVal) :
  JSON.parseText (body record) = Some (JObject props) ->
  Js.lookupProp props "Type" = Some (JString "Notification") ->
  Js.lookupProp props "Message" = Some (JString inner) ->
  JsString.truthy inner = true ->
  JSON.parseText inner = Some payload ->
  parseMessage record = ret payload.
Proof.
  intros Hbody Htype Hmsg Htruthy Hinner. unfold parseMessage.
  rewrite (parse_string_success _ _ Hbody). cbn [bind ret Js.getProp].
  rewrite Htype, Hmsg. cbn [from_option id strictEqString].
  change (String.eqb "Notification" "Notification") with true. cbn [Js.ToBoolean].
  rewrite Htruthy, (parse_string_success _ _ Hinner). reflexivity.
Qed.

(** X15.  A body that is the JSON text [null] parses, yet [parseMessage]
    reports it as a parse failure: reading [body.Type] throws, and the
    [catch] block wraps that error. *)
Theorem parseMessage_null_body (record : InboundRecord) :
  JSON.parseText (body record) = Some JNull ->
  parseMessage record =
    throw {| name := "Error";
             message := "Failed to parse message: " ++
                        fault_message (ReadOfNullish "Type") |}.
Proof.
  intros Hbody. unfold parseMessage.
  rewrite (parse_string_success _ _ Hbody). reflexivity.
Qed.

(** X16.  Any JSON body other than [null] that is not a notification with
    a truthy [Message] is the payload as parsed: scalars, arrays, plain
    objects, and notifications whose [Message] is missing or empty. *)
Theorem parseMessage_plain_body (record : InboundRecord) (parsed : JsVal) :
  JSON.parseText (body record) = Some parsed ->
  Js.nullish parsed = false ->
  isEnvelope parsed = false ->
  parseMessage record = ret parsed.
Proof.
  intros Hbody Hnull Hplain. unfold parseMessage.
  rewrite (parse_string_success _ _ Hbody). cbn [bind ret].
  assert (Hprop : forall k, Js.getProp parsed k = inr (Publisher.member parsed k))
    by (intros k; destruct parsed; try reflexivity; discriminate Hnull).
  rewrite (Hprop "Type"). cbn [bind]. unfold isEnvelope in Hplain.
  destruct (strictEqString (Publisher.member parsed "Type") "Notification");
    [|reflexivity].
  rewrite (Hprop "Message"). cbn [bind]. cbn [andb] in Hplain. rewrite Hplain.
  reflexivity.
Qed.

End MoreUnwrapperFacts.

Lemma parseMessage_unwraps_one_level_witness :
  parseMessage (engine := sampleEngine) nestedRecord =
    ret (JObject [("Type", JString "Notification"); ("Message", JString "{}")]).
Proof.
  apply (parseMessage_unwraps_one_level (engine := sampleEngine) nestedRecord
           [("Type", JString "Notification");
            ("Message", JString (JSON.q "{'Type':'Notification','Message':'{}'}"))]
           (JSON.q "{'Type':'Notification','Message':'{}'}"));
    vm_compute; reflexivity.
Defined.

Lemma parseMessage_null_body_witness :
  parseMessage (engine := sampleEngine) nullRecord =
    throw {| name := "Error";
             message := "Failed to parse message: " ++
                        fault_message (Engine := sampleEngine) (ReadOfNullish "Type") |}.
Proof.
  apply (parseMessage_null_body (engine := sampleEngine) nullRecord).
  vm_compute. reflexivity.
Defined.

Lemma parseMessage_plain_body_witness :
  parseMessage (engine := sampleEngine) emptyNotification =
    ret (JObject [("Type", JString "Notification"); ("Message", JString "")]).
Proof.
  apply (parseMessage_plain_body (engine := sampleEngine) emptyNotification);
    vm_compute; reflexivity.
Defined.

(** ** Event types, the API handler and the wrapper *)

Section EntryPoints.
Context {engine : Engine}.
Import EventType.

Lemma strictEqString_true v text : v = JString text -> strictEqString v text = true.
Proof. intros ->. cbn. apply String.eqb_refl. Qed.

Lemma strictEqString_false v text : v <> JString text -> strictEqString v text = false.
Proof.
  intros Hne. destruct v; try reflexivity. cbn.
  destruct (String.eqb_spec s text) as [->|]; [contradiction | reflexivity].
Qed.

(** The label decided by the shape of the event. *)
Lemma ofShape_value event :
  Js.nullish event = false ->
  ofShape event =
    ret (if Js.ToBoolean (Publisher.member event "httpMethod") ||
            Js.ToBoolean (Publisher.member event "requestContext")
         then "API_GATEWAY"
         else if Js.ToBoolean (Publisher.member event "source") &&
                 Js.ToBoolean (Publisher.member event "detail-type")
              then "EVENTBRIDGE" else "DIRECT_INVOKE").
Proof.
  intros Hnull. unfold ofShape.
  assert (Hprop : forall k, Js.getProp event k = inr (Publisher.member event k))
    by (intros k; destruct event; try reflexivity; discriminate Hnull).
  repeat (rewrite Hprop; cbn [bind]).
  destruct (_ || _); [reflexivity|].
  repeat (rewrite Hprop; cbn [bind]).
  destruct (_ && _); reflexivity.
Qed.

Lemma shape_label_known (a b : bool) :
  (if a then "API_GATEWAY" else if b then "EVENTBRIDGE" else "DIRECT_INVOKE")
    ∈ eventTypes.
Proof. destruct a, b; unfold eventTypes; set_solver. Qed.

Lemma ofShape_label event :
  Js.nullish event = false ->
  exists label, ofShape event = ret label /\ label ∈ eventTypes.
Proof.
  intros Hnull. rewrite (ofShape_value event Hnull).
  eexists. split; [reflexivity | apply shape_label_known].
Qed.

Lemma ofFirstRecord_label records label :
  ofFirstRecord records = Some label -> label ∈ eventTypes.
Proof.
  unfold ofFirstRecord.
  repeat (destruct (strictEqString _ _);
          [intros [= <-]; unfold eventTypes; set_solver|]).
  discriminate.
Qed.

(** The tests on a first record that is an object. *)
Lemma ofFirstRecord_object rprops rest :
  ofFirstRecord (JArray (JObject rprops :: rest)) =
    let lower := default JUndefined (Js.lookupProp rprops "eventSource") in
    let upper := default JUndefined (Js.lookupProp rprops "EventSource") in
    if strictEqString lower "aws:sqs" then Some "SQS"
    else if strictEqString upper "aws:sns" then Some "SNS"
    else if strictEqString lower "aws:s3" then Some "S3"
    else if strictEqString lower "aws:dynamodb" then Some "DynamoDB"
    else None.
Proof. reflexivity. Qed.

Lemma detectEventType_returns event :
  Js.nullish event = false -> exists label, detectEventType event = ret label.
Proof.
  intros Hnull. unfold detectEventType.
  assert (Hprop : Js.getProp event "Records" = inr (Publisher.member event "Records"))
    by (destruct event; try reflexivity; discriminate Hnull).
  rewrite Hprop. cbn [bind].
  destruct (ofShape_label event Hnull) as (label & Hshape & _).
  destruct (Js.ToBoolean _); [destruct (ofFirstRecord _) as [l|]|]; eauto.
Qed.

Lemma detectEventType_nullish event :
  Js.nullish event = true ->
  detectEventType event = throw (raise (ReadOfNullish "Records")).
Proof. destruct event; try discriminate; reflexivity. Qed.

(** X17.  [detectEventType] throws only for an event that is [null] or
    [undefined]; otherwise it returns one of its seven labels.  When
    [event.Records] is an array whose first element is an object, that
    element decides: [eventSource] ['aws:sqs'] gives [SQS], else
    [EventSource] ['aws:sns'] gives [SNS], else [eventSource] ['aws:s3']
    gives [S3] and ['aws:dynamodb'] gives [DynamoDB], whatever else the event
    carries (an [httpMethod], further records).  When the first record
    names none of these, or [event.Records] is falsy, the shape of the
    event decides: [API_GATEWAY] for a truthy [httpMethod] or
    [requestContext], else [EVENTBRIDGE] for a truthy [source] and
    [detail-type], else [DIRECT_INVOKE]. *)
Theorem detectEventType_classifies (event : JsVal) :
  Js.nullish event = false ->
  exists label,
    detectEventType event = ret label /\ label ∈ eventTypes /\
    let shape :=
      if Js.ToBoolean (Publisher.member event "httpMethod") ||
         Js.ToBoolean (Publisher.member event "requestContext")
      then "API_GATEWAY"
      else if Js.ToBoolean (Publisher.member event "source") &&
              Js.ToBoolean (Publisher.member event "detail-type")
           then "EVENTBRIDGE" else "DIRECT_INVOKE" in
    (forall rprops rest,
       Publisher.member event "Records" = JArray (JObject rprops :: rest) ->
       let lower := default JUndefined (Js.lookupProp rprops "eventSource") in
       let upper := default JUndefined (Js.lookupProp rprops "EventSource") in
       (lower = JString "aws:sqs" -> label = "SQS") /\
       (upper = JString "aws:sns" -> lower <> JString "aws:sqs" -> label = "SNS") /\
       (lower = JString "aws:s3" -> upper <> JString "aws:sns" -> label = "S3") /\
       (lower = JString "aws:dynamodb" -> upper <> JString "aws:sns" ->
        label = "DynamoDB") /\
       (lower <> JString "aws:sqs" -> upper <> JString "aws:sns" ->
        lower <> JString "aws:s3" -> lower <> JString "aws:dynamodb" ->
        label = shape)) /\
    (Js.ToBoolean (Publisher.member event "Records") = false -> label = shape).
Proof.
  intros Hnull. unfold detectEventType.
  assert (Hprop : Js.getProp event "Records" = inr (Publisher.member event "Records"))
    by (destruct event; try reflexivity; discriminate Hnull).
  rewrite Hprop. cbn [bind]. rewrite (ofShape_value event Hnull).
  set (shape := if _ || _ then _ else _).
  destruct (Js.ToBoolean (Publisher.member event "Records")) eqn:Hrecords.
  - exists (default shape (ofFirstRecord (Publisher.member event "Records"))).
    split; [destruct (ofFirstRecord _); reflexivity|].
    split.
    { destruct (ofFirstRecord _) as [l|] eqn:Hresult;
        [exact (ofFirstRecord_label _ _ Hresult) | apply shape_label_known]. }
    split; [|discriminate].
    intros rprops rest Hshape. rewrite Hshape, ofFirstRecord_object. cbv zeta.
    repeat split.
    + intros Hl. rewrite (strictEqString_true _ _ Hl). reflexivity.
    + intros Hu Hl.
      rewrite (strictEqString_false _ _ Hl), (strictEqString_true _ _ Hu). reflexivity.
    + intros Hl Hu.
      rewrite (strictEqString_false _ "aws:sqs") by (rewrite Hl; discriminate).
      rewrite (strictEqString_false _ _ Hu), (strictEqString_true _ _ Hl). reflexivity.
    + intros Hl Hu.
      rewrite (strictEqString_false _ "aws:sqs") by (rewrite Hl; discriminate).
      rewrite (strictEqString_false _ _ Hu).
      rewrite (strictEqString_false _ "aws:s3") by (rewrite Hl; discriminate).
      rewrite (strictEqString_true _ _ Hl). reflexivity.
    + intros H1 H2 H3 H4.
      rewrite (strictEqString_false _ _ H1), (strictEqString_false _ _ H2),
        (strictEqString_false _ _ H3), (strictEqString_false _ _ H4). reflexivity.
  - exists shape. split; [reflexivity|]. split; [apply shape_label_known|].
    split; [|reflexivity].
    intros rprops rest Hshape. rewrite Hshape in Hrecords. discriminate Hrecords.
Qed.

Section Handle.
Variable World : Type.

(** X18.  Once [init] has succeeded, [APIHandler.handle] never throws: it
    returns the callback's result when the callback returns a value other
    than [null] and [undefined], and the status-500 response carrying the
    request id when the callback throws or returns [null] or [undefined];
    the callback is called once, with the trace context recovered from the
    event. *)
Theorem handle_always_responds (serviceName : string) (event : InboundRecord)
    (context : HandlerContext) (span : option SpanContext)
    (businessLogic : APIHandler.BusinessLogic World) (w : World) :
  active context = Some (ReturnsContext span) ->
  let info := {| APIHandler.info_context := context;
                 APIHandler.info_traceContext :=
                   ObservabilityManager.extractIncomingTraceContext event |} in
  exists response,
    APIHandler.handle World serviceName event context businessLogic w =
      (ret response, snd (businessLogic event info w)) /\
    response =
      match fst (businessLogic event info w) with
      | inr result =>
          if Js.nullish result then APIHandler.internalServerError context else result
      | inl _ => APIHandler.internalServerError context
      end.
Proof.
  intros Hactive info. unfold APIHandler.handle, init, getActiveSpan. rewrite Hactive.
  cbn [bind ret].
  unfold APIHandler.tryRequest. fold info.
  destruct (businessLogic event info w) as [[err|result] w']; cbn [fst snd monitor bind].
  - eexists. split; reflexivity.
  - destruct result; cbn; eexists; split; reflexivity.
Qed.

End Handle.

Section Wrapped.
Variable World : Type.

(** X19.  A handler wrapped by [withObservability] is called exactly when
    [init] succeeds, that is when [context.active()] returns a [Context]
    and the event is neither [null] nor [undefined]; the wrapped handler
    then completes as the handler itself: the same result or the same
    error, and the same effect on the world.  In every other case the error
    of [init] is thrown and the handler is not called. *)
Theorem withObservability_transparent (serviceName : string)
    (handler : LambdaHandler World) (event : JsVal)
    (context : HandlerContext) (w : World) :
  withObservability World serviceName handler event context w =
    match active context with
    | Some (ReturnsContext _) =>
        if Js.nullish event then (throw (raise (ReadOfNullish "Records")), w)
        else handler event context w
    | Some ReturnsNullish => (throw (raise (ReadOfNullish "getValue")), w)
    | Some ReturnsOther => (throw (raise (NotCallable "context.getValue")), w)
    | Some (ActiveThrows e) => (throw e, w)
    | None => (throw (raise (NotCallable "context.active")), w)
    end.
Proof.
  unfold withObservability, initWith, init, getActiveSpan.
  destruct (active context) as [[span| | |e]|]; cbn [bind ret throw]; try reflexivity.
  destruct (Js.nullish event) eqn:Hnull.
  - rewrite (detectEventType_nullish event Hnull). reflexivity.
  - destruct (detectEventType_returns event Hnull) as [label ->]. cbn [bind ret].
    destruct (handler event context w) as [[err|result] w']; reflexivity.
Qed.

End Wrapped.
End EntryPoints.

Lemma detectEventType_classifies_witness :
  EventType.detectEventType (engine := sampleEngine) mixedEvent = ret "SQS".
Proof.
  destruct (detectEventType_classifies (engine := sampleEngine) mixedEvent eq_refl)
    as (label & Hrun & _ & Hrecord & _).
  destruct (Hrecord _ _ eq_refl) as (Hsqs & _).
  rewrite Hrun, (Hsqs eq_refl). reflexivity.
Defined.

Lemma handle_always_responds_witness :
  let info := {| APIHandler.info_context := activeContext;
                 APIHandler.info_traceContext :=
                   ObservabilityManager.extractIncomingTraceContext apiEvent |} in
  exists response,
    APIHandler.handle (engine := sampleEngine) nat "user-service" apiEvent activeContext
        okLogic 0%nat =
      (ret response, snd (okLogic apiEvent info 0%nat)) /\
    response =
      match fst (okLogic apiEvent info 0%nat) with
      | inr result =>
          if Js.nullish result
          then APIHandler.internalServerError (engine := sampleEngine) activeContext
          else result
      | inl _ => APIHandler.internalServerError (engine := sampleEngine) activeContext
      end.
Proof.
  apply (handle_always_responds (engine := sampleEngine) nat "user-service" apiEvent
           activeContext None okLogic 0%nat).
  reflexivity.
Defined.


(** ** What the publisher handler sends without an override *)

Section HandlerFallback.
Context {engine : Engine}.
Import Publisher.

Lemma contextSource_wf env incoming g :
  Js.ToBoolean incoming = false ->
  validEnv env = true ->
  exists text,
    fst (contextSource env incoming g) = JString text /\
    wellFormedTraceparent text = true.
Proof.
  intros Hfalsy Hvalid. unfold contextSource. rewrite Hfalsy.
  destruct (getTraceparentFromActiveSpan env) as [text|] eqn:Hotel.
  - rewrite (getTraceparentFromActiveSpan_truthy env text Hotel). cbn [fst].
    exists text. split; [reflexivity|].
    exact (getTraceparentFromActiveSpan_wf env text Hvalid Hotel).
  - destruct (generateTraceparent_shape g) as (t & s & Htext & Hlt & Ht & Hls & Hs & _).
    unfold generateW3CTraceparent.
    destruct (generateTraceparent g) as [fresh g']. cbn [fst] in *.
    exists fresh. split; [reflexivity|]. rewrite Htext.
    apply (wellFormed_formatted t s "01"); auto.
Qed.

(** X20.  Without a truthy override in the event, and with valid ids in
    the environment's span contexts, every message the publisher handler
    sends carries one well-formed trace identifier, the same in both
    carriers: the active span's, the X-Ray header's or a generated one. *)
Theorem handler_sends_wellFormed (env : PublisherEnv) (event : JsVal) (g : RNG)
    (cmd : PublishCommandInput) :
  Js.ToBoolean (member event "traceparent") = false ->
  validEnv env = true ->
  fst (handler env event g) = ret cmd ->
  exists text,
    MessageAttributes cmd !! "traceparent" = Some (stringAttribute (JString text)) /\
    MessageAttributes cmd !! "w3c_traceparent_orig" =
      Some (stringAttribute (JString text)) /\
    wellFormedTraceparent text = true.
Proof.
  intros Hfalsy Hvalid. unfold handler.
  set (event' := match event with JUndefined => JObject [] | _ => event end).
  assert (Hfalsy' : Js.ToBoolean (member event' "traceparent") = false)
    by (destruct event; exact Hfalsy).
  destruct (Js.getProp event' "transactionType") as [e|tt]; [discriminate|].
  destruct (if Js.nullish _ then _ else _) as [orderId g1].
  destruct (contextSource_wf env (member event' "traceparent") g1 Hfalsy' Hvalid)
    as (text & Hchosen & Hwf).
  destruct (contextSource env _ g1) as [chosen g2]. cbn [fst] in *. subst chosen.
  unfold bind, ret. cbn [callSplit].
  destruct (buildAttributes _ _ _ (JString text)) as [e|attrs] eqn:Hattrs; [discriminate|].
  intros [= <-]. exists text. cbn [MessageAttributes].
  destruct (buildAttributes_carriers _ _ _ _ _ Hattrs) as [Hp Hb]. auto.
Qed.

End HandlerFallback.

(** What the publisher handler sends for an empty event in an environment
    without any trace context. *)
Lemma handler_sends_wellFormed_witness :
  exists text,
    MessageAttributes
      (match fst (Publisher.handler (engine := sampleEngine) bareEnv (JObject [])
                    countingRNG) with
       | inr cmd => cmd
       | inl _ => sentCommand
       end) !! "traceparent" = Some (stringAttribute (JString text)) /\
    MessageAttributes
      (match fst (Publisher.handler (engine := sampleEngine) bareEnv (JObject [])
                    countingRNG) with
       | inr cmd => cmd
       | inl _ => sentCommand
       end) !! "w3c_traceparent_orig" = Some (stringAttribute (JString text)) /\
    wellFormedTraceparent text = true.
Proof.
  apply (handler_sends_wellFormed (engine := sampleEngine) bareEnv (JObject [])
           countingRNG).
  - vm_compute. reflexivity.
  - vm_compute. reflexivity.
  - vm_compute. reflexivity.
Defined.

(** ** The Context Source, from the override to the carriers *)

Section ContextSourceClaims.
Import Publisher.

(** C7, counterexample.  An override that is not a trace identifier, in an
    environment with an active span: the Context Source returns the
    override as it is, and the handler sends it in both carriers. *)
Lemma C7_override_unchecked :
  wellFormedTraceparent "not-a-traceparent" = false /\
  fst (contextSource (engine := sampleEngine) sampleEnv (JString "not-a-traceparent")
         countingRNG) = JString "not-a-traceparent" /\
  exists cmd,
    fst (handler (engine := sampleEngine) sampleEnv
           (JObject [("traceparent", JString "not-a-traceparent")]) countingRNG)
      = ret cmd /\
    MessageAttributes cmd !! "traceparent" =
      Some (stringAttribute (JString "not-a-traceparent")) /\
    MessageAttributes cmd !! "w3c_traceparent_orig" =
      Some (stringAttribute (JString "not-a-traceparent")).
Proof.
  split; [reflexivity|]. split; [reflexivity|].
  eexists. split; [vm_compute; reflexivity|].
  split; vm_compute; reflexivity.
Qed.

Context {engine : Engine}.

(** The value the handler hands to both carriers is the one the Context
    Source chose for the event's [traceparent] member. *)
Lemma handler_sends_chosen env event g cmd :
  fst (handler env event g) = ret cmd ->
  let g1 := if Js.nullish (member event "orderId") then snd (Math_random g) else g in
  let chosen := fst (contextSource env (member event "traceparent") g1) in
  MessageAttributes cmd !! "traceparent" = Some (stringAttribute chosen) /\
  MessageAttributes cmd !! "w3c_traceparent_orig" = Some (stringAttribute chosen).
Proof.
  intros Hrun g1 chosen. revert Hrun. unfold handler.
  set (event' := match event with JUndefined => JObject [] | _ => event end).
  assert (Hmember : forall k, member event' k = member event k)
    by (intros k; destruct event; reflexivity).
  rewrite !Hmember.
  destruct (Js.getProp event' "transactionType") as [e|tt]; [discriminate|].
  set (drawn := if Js.nullish (member event "orderId")
                then let '(x, g') := Math_random g in
                     (JString ("ORD-" ++ Fraction_base36 x), g')
                else (member event "orderId", g)).
  assert (Hrng : snd drawn = g1).
  { unfold drawn, g1. destruct (Js.nullish _); [|reflexivity].
    destruct (Math_random g). reflexivity. }
  clearbody drawn. destruct drawn as [orderId g1']. cbn [snd] in Hrng.
  rewrite Hrng.
  destruct (contextSource env (member event "traceparent") g1) as [c g2] eqn:Hsource.
  assert (Hc : c = chosen) by reflexivity.
  cbn [fst]. unfold bind, ret.
  destruct (callSplit c) as [e|parts]; [discriminate|].
  destruct (buildAttributes _ _ _ c) as [e|attrs] eqn:Hattrs; [discriminate|].
  intros [= <-]. cbn [MessageAttributes]. rewrite <- Hc.
  exact (buildAttributes_carriers _ _ _ _ _ Hattrs).
Qed.

(** The handler reaches [sns.send] for an event other than [null] whenever
    the chosen value is a text and [event.amount], if truthy, has a
    [toString] that returns. *)
Lemma handler_returns env event g :
  event <> JNull ->
  (let g1 := if Js.nullish (member event "orderId") then snd (Math_random g) else g in
   exists text, fst (contextSource env (member event "traceparent") g1) = JString text) ->
  (Js.ToBoolean (member event "amount") = false \/
   exists shown, callToString (member event "amount") = ret shown) ->
  exists cmd, fst (handler env event g) = ret cmd.
Proof.
  intros Hnull [text Htext] Hamount. unfold handler.
  set (event' := match event with JUndefined => JObject [] | _ => event end).
  assert (Hmember : forall k, member event' k = member event k)
    by (intros k; destruct event; reflexivity).
  assert (Hprop : forall k, Js.getProp event' k = inr (member event k)).
  { intros k. rewrite <- Hmember. unfold event'.
    destruct event; try reflexivity. contradiction. }
  rewrite !Hmember, (Hprop "transactionType").
  set (drawn := if Js.nullish (member event "orderId")
                then let '(x, g') := Math_random g in
                     (JString ("ORD-" ++ Fraction_base36 x), g')
                else (member event "orderId", g)).
  assert (Hrng : snd drawn =
                 if Js.nullish (member event "orderId") then snd (Math_random g) else g).
  { unfold drawn. destruct (Js.nullish _); [|reflexivity].
    destruct (Math_random g). reflexivity. }
  clearbody drawn. destruct drawn as [orderId g1']. cbn [snd] in Hrng. rewrite Hrng.
  destruct (contextSource env (member event "traceparent") _) as [c g2].
  cbn [fst] in Htext |- *. subst c. cbn [callSplit bind ret].
  unfold buildAttributes. rewrite !Hprop. cbn [bind ret].
  destruct Hamount as [Hfalsy | [shown Hshown]].
  - rewrite Hfalsy. cbn [bind ret]. eexists. reflexivity.
  - destruct (Js.ToBoolean (member event "amount")).
    + rewrite Hshown. cbn [bind ret]. eexists. reflexivity.
    + cbn [bind ret]. eexists. reflexivity.
Qed.

(** C7, as amended.  The Context Source of the publisher handler returns
    exactly one value for every event and environment, never a falsy one:
    the caller's override [event.traceparent] as it is, unchecked, when it
    is truthy; else the text the environment offers, which for an active
    span with ids is [00-traceId-spanId-flags] of that span; else a
    freshly generated identifier.  Without an override the value is a
    text, and a well-formed trace identifier when the span contexts of the
    environment have valid ids.  The handler puts the value into both
    carriers of the message it sends, and it does send one when the value
    is a text (and [event.amount] can be shown); a truthy override that is
    not a text makes the handler throw a [TypeError] instead.
    [Math.random] is drawn from by the Context Source only when it
    generates, and [traceparentSource] names the step that was taken. *)
Theorem C7_context_source_chain (env : PublisherEnv) (event : JsVal) (g : RNG) :
  let incoming := member event "traceparent" in
  let g1 := if Js.nullish (member event "orderId") then snd (Math_random g) else g in
  let chosen := fst (contextSource env incoming g1) in
  Js.ToBoolean chosen = true /\
  (Js.ToBoolean incoming = true -> chosen = incoming) /\
  (Js.ToBoolean incoming = false ->
   exists text,
     chosen = JString text /\
     (forall sc,
        env_activeSpan env = Some (Some sc) ->
        JsString.truthy (sc_traceId sc) = true ->
        JsString.truthy (sc_spanId sc) = true ->
        text = "00-" ++ sc_traceId sc ++ "-" ++ sc_spanId sc ++ "-" ++
               flagsText (sc_traceFlags sc)) /\
     (forall found, getTraceparentFromActiveSpan env = Some found -> text = found) /\
     (getTraceparentFromActiveSpan env = None ->
      text = fst (generateW3CTraceparent g1) /\ wellFormedTraceparent text = true) /\
     (validEnv env = true -> wellFormedTraceparent text = true)) /\
  (forall cmd,
     fst (handler env event g) = ret cmd ->
     MessageAttributes cmd !! "traceparent" = Some (stringAttribute chosen) /\
     MessageAttributes cmd !! "w3c_traceparent_orig" = Some (stringAttribute chosen)) /\
  (event <> JNull ->
   (exists text, chosen = JString text) ->
   Js.ToBoolean (member event "amount") = false \/
   (exists shown, callToString (member event "amount") = ret shown) ->
   exists cmd, fst (handler env event g) = ret cmd) /\
  (Js.ToBoolean incoming = true ->
   (forall text, incoming <> JString text) ->
   fst (handler env event g) = throw (raise (NotCallable "traceparent.split"))) /\
  snd (contextSource env incoming g1) =
    (if Js.ToBoolean incoming then g1
     else match getTraceparentFromActiveSpan env with
          | Some _ => g1
          | None => snd (generateW3CTraceparent g1)
          end) /\
  traceparentSource incoming (getTraceparentFromActiveSpan env) =
    (if Js.ToBoolean incoming then "incoming"
     else match getTraceparentFromActiveSpan env with
          | Some _ => "otel"
          | None => "generated"
          end).
Proof.
  intros incoming g1 chosen.
  split; [apply contextSource_truthy|].
  split.
  { intros Htruthy. unfold chosen. rewrite contextSource_chain, Htruthy. reflexivity. }
  split; [|split; [|split; [|split; [|split]]]].
  2: { intros cmd Hrun. exact (handler_sends_chosen env event g cmd Hrun). }
  2: { intros Hnull Htext Hamount. exact (handler_returns env event g Hnull Htext Hamount). }
  2: { intros Htruthy Hnot. exact (handler_throws_at_split env event g Htruthy Hnot). }
  2: { exact (contextSource_rng env incoming g1). }
  2: { exact (traceparentSource_label env incoming). }
  intros Hfalsy. unfold chosen. rewrite contextSource_chain, Hfalsy.
  destruct (getTraceparentFromActiveSpan env) as [found|] eqn:Hotel; cbn [fst].
  - exists found. split; [reflexivity|]. split; [|split; [|split]].
    + intros sc Hspan Ht Hs. revert Hotel.
      unfold getTraceparentFromActiveSpan, fromActiveSpan, traceparentOfSpanContext.
      rewrite Hspan, Ht, Hs. cbn [andb]. intros [= <-]. reflexivity.
    + intros found' [= <-]. reflexivity.
    + discriminate.
    + intros Hvalid. exact (getTraceparentFromActiveSpan_wf env found Hvalid Hotel).
  - exists (fst (generateW3CTraceparent g1)). split; [reflexivity|].
    split; [|split; [|split]].
    + intros sc Hspan Ht Hs. revert Hotel.
      unfold getTraceparentFromActiveSpan, fromActiveSpan, traceparentOfSpanContext.
      rewrite Hspan, Ht, Hs. cbn [andb]. discriminate.
    + discriminate.
    + intros _. split; [reflexivity | apply generated_wf].
    + intros _. apply generated_wf.
Qed.

End ContextSourceClaims.
